(** * pshaw: persistent shell archive wrapper

    A shallow embedding of [pshaw.py] and the verification of its session
    life cycle: label validation, session creation, the lock probe, the
    rendered init script, the replay of the log, and the rotation of log and
    history on disconnect.

    Python strings are represented by their UTF-8 bytes ([string]), file
    contents and terminal output by [list byte].  The file system, the
    terminal and the launched processes are explicit state; [exit] and
    uncaught exceptions abort the computation but keep the state reached. *)

From Stdlib Require Import ZArith Strings.String Strings.Ascii Strings.Byte.
From stdpp Require Import gmap strings list pretty.

Local Open Scope string_scope.
Local Open Scope list_scope.
Local Open Scope Z_scope.
Local Open Scope stdpp_scope.

(* ===================================================================== *)
(** * Characters that a string literal cannot hold *)

(** The line feed as a string. *)
Definition LF : string := String "010" EmptyString.

(** The double quote. *)
Definition dq : string := String "034" EmptyString.

(* ===================================================================== *)
(** * Lines of a byte stream, as [tail] sees them *)

(** The line feed. *)
Definition nl : byte := x0a.

Definition is_nl (b : byte) : bool := Byte.eqb b nl.

(** A line is a maximal run of bytes ending with its line feed; a last run
    without line feed is a line too.  Every line keeps its terminator, so the
    concatenation of the lines is the stream. *)
Fixpoint lines (bs : list byte) : list (list byte) :=
  match bs with
  | [] => []
  | b :: bs' =>
      if is_nl b then [b] :: lines bs'
      else match lines bs' with
           | [] => [[b]]
           | l :: ls => (b :: l) :: ls
           end
  end.

(** Standard output of [tail -n size file] on a regular file with content
    [bs]: its last [size] lines.  This is [tail] for the counts it accepts,
    those below [2 ^ 64]: the program only passes [logsize] and
    [historysize], and a statement about another count either keeps it
    below the number of lines of a file or carries that bound. *)
Definition tail_n (size : N) (bs : list byte) : list byte :=
  let ls := lines bs in
  concat (drop (N.to_nat (N.of_nat (length ls) - size)) ls).

(** Lines as [lines] produces them: no line is empty, a line feed only ends
    a line, and only the last line may lack one. *)
Definition not_nl (b : byte) : Prop := is_nl b = false.

Inductive wf_lines : list (list byte) -> Prop :=
  | wf_nil : wf_lines []
  | wf_open l : l ≠ [] -> Forall not_nl l -> wf_lines [l]
  | wf_closed body ls :
      Forall not_nl body -> wf_lines ls -> wf_lines ((body ++ [nl]) :: ls).

(* ===================================================================== *)
(** * Paths and the file system *)

(** A [pathlib.Path] is the list of its components below the root. *)
Definition path_div (p : list string) (name : string) : list string :=
  p ++ [name].

Infix "//" := path_div (at level 40, left associativity).

Definition path_parent (p : list string) : list string := removelast p.

Definition path_name (p : list string) : string := List.last p "".

(** The components of a path, each after a slash. *)
Fixpoint str_components (p : list string) : string :=
  match p with
  | [] => ""
  | c :: p' => "/" +:+ c +:+ str_components p'
  end.

(** [str(path)]: the root is a single slash. *)
Definition str_path (p : list string) : string :=
  match p with
  | [] => "/"
  | _ :: _ => str_components p
  end.

Inductive node : Type :=
  | File (content : list byte)
  | Dir.

Abbreviation FS := (gmap (list string) node).

Definition is_dir (fs : FS) (p : list string) : bool :=
  match fs !! p with Some Dir => true | _ => false end.

Definition exists_ (fs : FS) (p : list string) : bool :=
  match fs !! p with Some _ => true | None => false end.

(** [p] is at or below [d] when [d] is a prefix of it.  A directory that is
    renamed takes along what lies below it. *)
Definition move_tree (src dst : list string) (f : FS) : FS :=
  list_to_map
    ((fun e : list string * node => (dst ++ drop (length src) e.1, e.2))
       <$> map_to_list
             (filter (fun e : list string * node => src `prefix_of` e.1) f))
  ∪ filter (fun e : list string * node => ¬ src `prefix_of` e.1) f.

(* ===================================================================== *)
(** * Effects: state, exit and exceptions *)

Inductive pyop : Type :=
  | OpEnviron | OpArgv | OpDict | OpMkdir | OpOpen | OpIterdir | OpMove
  | OpFormat.

Inductive exn_kind : Type :=
  | KeyError | IndexError | ValueError
  | FileNotFoundError | FileExistsError | NotADirectoryError
  | IsADirectoryError | ShutilError.

(** The class of the error for an entry that is not there: what is
    directly above it decides, a regular file there gives
    [NotADirectoryError]. *)
Definition missing_kind (f : FS) (p : list string) : exn_kind :=
  match f !! path_parent p with
  | Some (File _) => NotADirectoryError
  | _ => FileNotFoundError
  end.

(** An uncaught exception: its class, the operation that raised it and the
    path (or [[]]) it concerns. *)
Inductive exn : Type :=
  | Exn (kind : exn_kind) (op : pyop) (p : list string).

Inductive abort : Type :=
  | Exit (code : Z)
  | Raise (e : exn).

(** What the program does to the outside, in order. *)
Inductive event : Type :=
  | Stdout (data : list byte)
  | Stderr (msg : string)
  | Subprocess (cmd : list string)
  | PtySpawn (cmd : list string).

Record State : Type := mkState {
  fs : gmap (list string) node;
  trace : list event;
}.

Definition Py (A : Type) : Type := State -> (A + abort) * State.

Definition ret {A} (a : A) : Py A := fun s => (inl a, s).

Definition bind {A B} (k : A -> Py B) (m : Py A) : Py B :=
  fun s => match m s with
           | (inl a, s') => k a s'
           | (inr e, s') => (inr e, s')
           end.

#[global] Instance Py_ret : MRet Py := @ret.
#[global] Instance Py_bind : MBind Py := @bind.

Definition raise {A} (e : exn) : Py A := fun s => (inr (Raise e), s).

(** [exit(code)] *)
Definition exit {A} (code : Z) : Py A := fun s => (inr (Exit code), s).

Definition when (c : bool) (m : Py unit) : Py unit :=
  if c then m else ret tt.

Definition get_fs : Py FS := fun s => (inl (fs s), s).

Definition put_fs (f : FS) : Py unit :=
  fun s => (inl tt, mkState f (trace s)).

Definition emit (e : event) : Py unit :=
  fun s => (inl tt, mkState (fs s) (trace s ++ [e])).

(** [sys.stderr.write(msg)] *)
Definition stderr_write (msg : string) : Py unit := emit (Stderr msg).

(** [sys.stdout.buffer.write(data)] *)
Definition stdout_write (data : list byte) : Py unit := emit (Stdout data).

(** [print(msg)] *)
Definition print (msg : string) : Py unit :=
  emit (Stdout (list_byte_of_string (msg +:+ LF))).

(** Bytes that reached the terminal, and text that reached error output. *)
Definition stdout_of (tr : list event) : list byte :=
  concat (omap (fun e => match e with Stdout d => Some d | _ => None end) tr).

Definition stderr_of (tr : list event) : string :=
  foldr String.append ""
    (omap (fun e => match e with Stderr m => Some m | _ => None end) tr).

Fixpoint before_spawn (tr : list event) : list event :=
  match tr with
  | [] => []
  | PtySpawn _ :: _ => []
  | e :: tr' => e :: before_spawn tr'
  end.

(** A computation only adds to the trace. *)
Definition extends {A} (m : Py A) : Prop :=
  forall s, exists rest, trace (m s).2 = trace s ++ rest.

Definition spawned (tr : list event) : bool :=
  existsb (fun e => match e with PtySpawn _ => true | _ => false end) tr.

(* ===================================================================== *)
(** * File operations of [pathlib], [shutil] and [open] *)

(** Creating or opening [p] for writing needs its parent to be a directory
    and [p] itself not to be one. *)
Definition check_writable (p : list string) : Py unit :=
  f ← get_fs;
  match f !! path_parent p with
  | None => raise (Exn FileNotFoundError OpOpen p)
  | Some (File _) => raise (Exn NotADirectoryError OpOpen p)
  | Some Dir =>
      match f !! p with
      | Some Dir => raise (Exn IsADirectoryError OpOpen p)
      | _ => ret tt
      end
  end.

(** [p.exists()] *)
Definition path_exists (p : list string) : Py bool :=
  f ← get_fs; ret (exists_ f p).

(** [p.write_text(data, 'utf8')], and [open(p, 'wb')] followed by one write. *)
Definition write_bytes (p : list string) (data : list byte) : Py unit :=
  check_writable p;;
  f ← get_fs; put_fs (<[p := File data]> f).

(** [p.touch()]: an existing entry keeps its content. *)
Definition touch (p : list string) : Py unit :=
  f ← get_fs;
  match f !! path_parent p, f !! p with
  | Some Dir, None => put_fs (<[p := File []]> f)
  | Some Dir, Some _ => ret tt
  | Some (File _), _ => raise (Exn NotADirectoryError OpOpen p)
  | None, _ => raise (Exn FileNotFoundError OpOpen p)
  end.

(** [p.open('rb')] followed by [read()]. *)
Definition read_bytes (p : list string) : Py (list byte) :=
  f ← get_fs;
  match f !! p with
  | Some (File c) => ret c
  | Some Dir => raise (Exn IsADirectoryError OpOpen p)
  | None => raise (Exn (missing_kind f p) OpOpen p)
  end.

(** [p.open('wb')]: the file is created, or emptied. *)
Definition open_wb (p : list string) : Py unit := write_bytes p [].

(** [p.open('ab')]: the file is created when absent. *)
Definition open_ab (p : list string) : Py unit :=
  check_writable p;;
  f ← get_fs;
  match f !! p with
  | None => put_fs (<[p := File []]> f)
  | Some _ => ret tt
  end.

(** A write through a file object opened on [p] for writing. *)
Definition fd_write (p : list string) (data : list byte) : Py unit :=
  f ← get_fs; put_fs (<[p := File data]> f).

(** Writes through a file object opened on [p] for appending; they are lost
    to [p] when the file was removed from under it in the meantime. *)
Definition fd_append (p : list string) (data : list byte) : Py unit :=
  f ← get_fs;
  match f !! p with
  | Some (File c) => put_fs (<[p := File (c ++ data)]> f)
  | _ => ret tt
  end.

(** [p.mkdir(parents=True, exist_ok=True)]: every missing ancestor below
    the root is created; a regular file in the way raises, and the
    exception names the directory that was asked for. *)
Fixpoint mkdir_from (done rest : list string) (f : FS) : FS + exn :=
  match rest with
  | [] => inl f
  | c :: rest' =>
      let p := done ++ [c] in
      match f !! p with
      | Some Dir => mkdir_from p rest' f
      | Some (File _) =>
          inr (Exn (match rest' with
                    | [] => FileExistsError
                    | _ => NotADirectoryError
                    end) OpMkdir (p ++ rest'))
      | None => mkdir_from p rest' (<[p := Dir]> f)
      end
  end.

Definition mkdir_parents (p : list string) : Py unit :=
  f ← get_fs;
  match mkdir_from [] p f with
  | inl f' => put_fs f'
  | inr e => raise e
  end.

(** [os.makedirs(p)] as [shutil.copytree] calls it: the missing
    directories down to [p] are made; a regular file in the way raises, and
    the exception names the first path that could not be made. *)
Fixpoint makedirs_from (done rest : list string) (f : FS) : FS + exn :=
  match rest with
  | [] => inl f
  | c :: rest' =>
      let p := done ++ [c] in
      match f !! p with
      | Some Dir => makedirs_from p rest' f
      | Some (File _) =>
          inr (match rest' with
               | [] => Exn FileExistsError OpMove p
               | c' :: _ => Exn NotADirectoryError OpMove (p ++ [c'])
               end)
      | None => makedirs_from p rest' (<[p := Dir]> f)
      end
  end.

(** [shutil.move(src, dst)].  A destination that is a directory receives the
    source under its own name, and an entry already there is an error.
    Otherwise the source is renamed onto the destination: a regular file
    replaces a regular file there; a directory goes with all that lies
    below it, not into itself and not onto a regular file, and when the
    rename cannot be done for want of the directory above the destination,
    the tree is copied to it, the missing directories made on the way. *)
Definition shutil_move (src dst : list string) : Py unit :=
  f ← get_fs;
  if is_dir f dst && bool_decide (src = dst) then ret tt
  else
    let real_dst := if is_dir f dst then dst // path_name src else dst in
    if is_dir f dst && exists_ f real_dst
    then raise (Exn ShutilError OpMove real_dst)
    else match f !! src with
         | None => raise (Exn (missing_kind f src) OpMove src)
         | Some (File c) =>
             if is_dir f (path_parent real_dst)
             then put_fs (<[real_dst := File c]> (delete src f))
             else raise (Exn (missing_kind f real_dst) OpMove real_dst)
         | Some Dir =>
             if bool_decide (src `prefix_of` real_dst)
             then raise (Exn ShutilError OpMove src)
             else match f !! real_dst with
                  | Some (File _) =>
                      raise (Exn FileExistsError OpMove real_dst)
                  | _ =>
                      if is_dir f (path_parent real_dst)
                      then put_fs (move_tree src real_dst f)
                      else match makedirs_from [] real_dst f with
                           | inl f' => put_fs (move_tree src real_dst f')
                           | inr e => raise e
                           end
                  end
         end.

(** What [tail -n size p] prints: the last lines of a regular file, nothing
    (but a complaint on its own error output) for anything else. *)
Definition tail_stdout (size : N) (n : option node) : list byte :=
  match n with
  | Some (File c) => tail_n size c
  | _ => []
  end.

(* ===================================================================== *)
(** * The program *)

(** Sanity checks.  Log/history is pruned to this number of lines each time
    you disconnect from a session. *)
Definition logsize : N := 1000000.
Definition historysize : N := 1000000.

Definition usage_message : string := "Usage:

    pshaw create <label>
    pshaw connect <label>
    pshaw list

create  -- Create a new session using <label> as the identifier and run a shell in that session.

connect -- Connect to an existing session with identifier <label>

list    -- List all sessions

".

Definition command_bash (lockpath shell initpath : string) : list string :=
  ["flock"; "--nonblock"; "--conflict-exit-code"; "200"; lockpath;
   shell; "--init-file"; initpath; "-i"].

Definition init_bash : string := "

PSHAW_LABEL={label}
source {rcpath}

shopt -s histappend
HISTFILE={historypath}
cd `cat {workpath}`
PROMPT_COMMAND=" +:+ dq +:+ "history -a; pwd > {workpath}; $PROMPT_COMMAND" +:+ dq +:+ "

echo === Connected to session {label} ===

".

(** A script given by its lines: each is followed by a line feed. *)
Definition unlines (ls : list string) : string :=
  foldr (fun l r => l +:+ LF +:+ r) "" ls.

(** [template.format] on a dict [data], for templates whose replacement
    fields are plain names: the text outside the braces is copied, [{name}] is replaced
    by [data[name]].  An unknown name, an unclosed field or a stray closing
    brace has no result (Python raises).  [field] is the name being read. *)
Fixpoint format_go (data : gmap string string) (field : option string)
    (t : string) : option string :=
  match t with
  | EmptyString => match field with None => Some "" | Some _ => None end
  | String c t' =>
      match field with
      | None =>
          if Ascii.eqb c "{" then format_go data (Some "") t'
          else if Ascii.eqb c "}" then None
          else String c <$> format_go data None t'
      | Some name =>
          if Ascii.eqb c "}" then
            v ← data !! name;
            String.append v <$> format_go data None t'
          else format_go data (Some (name +:+ String c "")) t'
      end
  end.

Definition format (t : string) (data : gmap string string) : option string :=
  format_go data None t.

(** The character class [[-0-9a-zA-Z]]. *)
Definition safe_char (c : ascii) : bool :=
  let n := nat_of_ascii c in
  (n =? 45)%nat
  || ((48 <=? n)%nat && (n <=? 57)%nat)
  || ((97 <=? n)%nat && (n <=? 122)%nat)
  || ((65 <=? n)%nat && (n <=? 90)%nat).

Fixpoint skip_safe (s : string) : string :=
  match s with
  | String c s' => if safe_char c then skip_safe s' else s
  | EmptyString => s
  end.

(** [$]: the end of the string, or just before a line feed that ends it. *)
Definition at_dollar (s : string) : bool :=
  bool_decide (s = "") || bool_decide (s = LF).

(** [re.compile('^[-0-9a-zA-Z]+$').match(s) is not None] *)
Definition valid_label_match (s : string) : bool :=
  match s with
  | String c s' => safe_char c && at_dollar (skip_safe s')
  | EmptyString => false
  end.

(** How a child process ended. *)
Inductive child_exit : Type :=
  | Exited (code : Z)
  | Signaled (sig : Z) (core : bool).

(** [subprocess.run(...).returncode] *)
Definition returncode (c : child_exit) : Z :=
  match c with
  | Exited code => code
  | Signaled sig _ => - sig
  end.

(** The status of [os.waitpid], which is what [pty.spawn] returns: the exit
    code in the high byte, the terminating signal in the low byte. *)
Definition waitstatus (c : child_exit) : Z :=
  match c with
  | Exited code => (code mod 256) * 256
  | Signaled sig core => sig mod 128 + (if core then 128 else 0)
  end.

(** What surrounds one invocation: its arguments and environment, whether
    another process holds the session's lock when the probe and when the
    spawned command ask for it, and what the interactive shell does with the
    terminal and the file system before it ends. *)
Record Env : Type := mkEnv {
  argv : list string;
  environ : gmap string string;
  home : list string;
  cwd : list string;
  lock_held_at_probe : bool;
  lock_held_at_spawn : bool;
  shell_exit : child_exit;
  shell_output : list byte;
  shell_fs : gmap (list string) node -> gmap (list string) node;
}.

(** How [flock] ends when the command it waited for has ended: with the
    exit code of the command, or with 128 plus the signal that killed it. *)
Definition flock_exit (c : child_exit) : child_exit :=
  match c with
  | Exited code => Exited code
  | Signaled sig _ => Exited (128 + sig)
  end.

(** [flock --nonblock --conflict-exit-code 200 lockpath command]: the marker
    is opened, and created when absent; a marker that was there and is
    locked by another process ends [flock] with the conflict code, otherwise
    the command runs under the lock as a child that [flock] waits for. *)
Definition flock (held : bool) (lockpath : list string)
    (command : Py child_exit) : Py child_exit :=
  f ← get_fs;
  match f !! lockpath with
  | Some _ =>
      if held then ret (Exited 200)
      else c ← command; ret (flock_exit c)
  | None =>
      if is_dir f (path_parent lockpath)
      then put_fs (<[lockpath := File []]> f);;
           c ← command; ret (flock_exit c)
      else ret (Exited 66)
  end.

(** The file system once [flock] has opened the marker. *)
Definition lock_opened (lockpath : list string) (f : FS) : FS :=
  match f !! lockpath with
  | Some _ => f
  | None => <[lockpath := File []]> f
  end.

(** [/bin/true] *)
Definition bin_true : Py child_exit := ret (Exited 0).

(** The interactive shell on the pseudo-terminal: what it prints goes
    through the [read] callback and then to the real terminal. *)
Definition bash (env : Env) (read : list byte -> Py (list byte))
    : Py child_exit :=
  f ← get_fs; put_fs (shell_fs env f);;
  data ← read (shell_output env);
  emit (Stdout data);;
  ret (shell_exit env).

(** [pty.spawn(command, read)] *)
Definition pty_spawn (cmd : list string) (child : Py child_exit) : Py Z :=
  emit (PtySpawn cmd);;
  c ← child; ret (waitstatus c).

(** [subprocess.run(cmd).returncode] *)
Definition subprocess_run (cmd : list string) (child : Py child_exit)
    : Py Z :=
  emit (Subprocess cmd);;
  c ← child; ret (returncode c).

(** Print usage mesage and exit *)
Definition usage : Py unit :=
  stderr_write usage_message;; exit 1.

(** Copy path file, then replace with a truncated (last size lines)
    version *)
Definition truncate (path oldpath : list string) (size : N) : Py unit :=
  shutil_move path oldpath;;
  open_wb path;;
  emit (Subprocess ["tail"; "-n"; pretty size; str_path oldpath]);;
  f ← get_fs;
  fd_write path (tail_stdout size (f !! oldpath)).

Definition locked_message (label : string) (lockpath : list string)
    : string :=
  "Cannot connect to session " +:+ dq +:+ label +:+ dq
  +:+ ": Session locked. If you are sure you are not already using this session, you can rm "
  +:+ str_path lockpath +:+ " to unlock it." +:+ LF.

(** The paths of a session, as [run], [create] and [connect] compute them.
    A label is one path component, as every label is that the label test
    of [parse_arguments] accepts. *)
Definition basepath (env : Env) (label : string) : list string :=
  home env // ".pshaw" // label.
Definition initpath (env : Env) (label : string) : list string :=
  basepath env label // "init.bash".
Definition lockpath (env : Env) (label : string) : list string :=
  basepath env label // "lock".
Definition workpath (env : Env) (label : string) : list string :=
  basepath env label // "workdir".
Definition logpath (env : Env) (label : string) : list string :=
  basepath env label // "log".
Definition historypath (env : Env) (label : string) : list string :=
  basepath env label // "history".

(** The dict [data] that [run] passes to [init_bash.format]. *)
Definition init_data (env : Env) (label : string) : gmap string string :=
  {[ "label" := label;
     "rcpath" := str_path (home env // ".bashrc");
     "workpath" := str_path (workpath env label);
     "historypath" := str_path (historypath env label) ]}.

(** The [read] callback of [run]: what the child prints is appended to the
    log and handed on. *)
Definition read (env : Env) (label : string) (data : list byte)
    : Py (list byte) :=
  fd_append (logpath env label) data;; ret data.

(** Run a shell in a session, first part: from the shell check to the
    return of [pty.spawn], whose status is the result. *)
Definition run_session (env : Env) (label : string) : Py Z :=
  shell ← match environ env !! "SHELL" with
          | Some s => ret s
          | None => raise (Exn KeyError OpEnviron [])
          end;
  when (negb (String.eqb shell "/bin/bash"))
    (stderr_write ("Unknown Shell: " +:+ shell +:+ LF);; usage);;
  status ← subprocess_run
             ["flock"; "--nonblock"; "--conflict-exit-code"; "200";
              str_path (lockpath env label); "/bin/true"]
             (flock (lock_held_at_probe env) (lockpath env label) bin_true);
  when (status =? 200)
    (stderr_write (locked_message label (lockpath env label));; exit 1);;
  script ← match format init_bash (init_data env label) with
           | Some s => ret s
           | None => raise (Exn ValueError OpFormat [])
           end;
  write_bytes (initpath env label) (list_byte_of_string script);;
  stdout_write [x1b; x63];;
  log ← read_bytes (logpath env label);
  stdout_write log;;
  open_ab (logpath env label);;
  pty_spawn
    (command_bash (str_path (lockpath env label)) shell
       (str_path (initpath env label)))
    (flock (lock_held_at_spawn env) (lockpath env label)
       (bash env (read env label))).

(** Run a shell in a session, second part: what follows the return of
    [pty.spawn] with [status]. *)
Definition run_disconnect (env : Env) (label : string) (status : Z)
    : Py unit :=
  if negb (status =? 200) then
    truncate (logpath env label) (basepath env label // "log.old") logsize;;
    truncate (historypath env label) (basepath env label // "history.old")
      historysize;;
    print ("=== Disconnected from session " +:+ dq +:+ label +:+ dq
           +:+ " ===" +:+ LF)
  else
    stderr_write (locked_message label (lockpath env label));; exit 1.

(** Run a shell in a session *)
Definition run (env : Env) (label : string) : Py unit :=
  status ← run_session env label;
  run_disconnect env label status.

(** Print a list of sessions ([list] in the source). *)
Definition list_sessions (env : Env) : Py unit :=
  let basepath := home env // ".pshaw" in
  f ← get_fs;
  match f !! basepath with
  | None => raise (Exn (missing_kind f basepath) OpIterdir basepath)
  | Some (File _) => raise (Exn NotADirectoryError OpIterdir basepath)
  | Some Dir =>
      foldr (fun e k =>
               match e.2 with
               | Dir =>
                   if bool_decide (path_parent e.1 = basepath)
                   then print (path_name e.1);; k else k
               | File _ => k
               end)
            (ret tt) (map_to_list f)
  end.

(** Create a new session and then run a shell in it *)
Definition create (env : Env) (label : string) : Py unit :=
  ex ← path_exists (basepath env label);
  when ex
    (stderr_write ("Cannot create session: " +:+ dq +:+ label +:+ dq
                   +:+ " already exists." +:+ LF);; usage);;
  mkdir_parents (basepath env label);;
  write_bytes (workpath env label)
    (list_byte_of_string (str_path (cwd env)));;
  touch (logpath env label);;
  run env label.

(** Connect a shell to an existing session *)
Definition connect (env : Env) (label : string) : Py unit :=
  ex ← path_exists (basepath env label);
  when (negb ex)
    (stderr_write ("Cannot connect to session: " +:+ dq +:+ label +:+ dq
                   +:+ " not found" +:+ LF);; usage);;
  run env label.

(** [sys.argv[i]] *)
Definition sys_argv (env : Env) (i : nat) : Py string :=
  match argv env !! i with
  | Some a => ret a
  | None => raise (Exn IndexError OpArgv [])
  end.

(** [args[key]] *)
Definition dict_get (args : gmap string string) (key : string) : Py string :=
  match args !! key with
  | Some v => ret v
  | None => raise (Exn KeyError OpDict [])
  end.

(** Find command and label. Return dictionary with results *)
Definition parse_arguments (env : Env) : Py (gmap string string) :=
  let n := length (argv env) in
  when ((n <=? 1)%nat || (3 <? n)%nat) usage;;
  a1 ← sys_argv env 1;
  if String.eqb a1 "list" then
    when (negb (n =? 2)%nat) usage;;
    ret {[ "command" := a1 ]}
  else
    when (negb (n =? 3)%nat
          || (negb (String.eqb a1 "create")
              && negb (String.eqb a1 "connect"))) usage;;
    a2 ← sys_argv env 2;
    when (negb (valid_label_match a2))
      (stderr_write ("Invalid label " +:+ a2 +:+ ": Must be [-a-zA-Z0-9]+"
                     +:+ LF));;
    ret {[ "command" := a1; "label" := a2 ]}.

Definition main (env : Env) : Py unit :=
  args ← parse_arguments env;
  command ← dict_get args "command";
  if String.eqb command "create" then
    label ← dict_get args "label"; create env label
  else if String.eqb command "connect" then
    label ← dict_get args "label"; connect env label
  else if String.eqb command "list" then
    list_sessions env
  else ret tt.

(** The exit status of the process: 0 when [main] returns, the argument of
    [exit], and 1 for an uncaught exception. *)
Definition exit_status {A} (r : A + abort) : Z :=
  match r with
  | inl _ => 0
  | inr (Exit code) => code
  | inr (Raise _) => 1
  end.

(* ===================================================================== *)
(** * What the statements below speak of *)

(** What a move that went through has made of the file system [f]: a
    regular file [n] sits at [rd] and no longer at [src]; a directory went
    with its tree, from [f] or from [f] with directories made above [rd]. *)
Definition moved_to (f : FS) (src rd : list string) (n : node) (f1 : FS)
    : Prop :=
  match n with
  | File _ =>
      is_dir f (path_parent rd) = true /\ f1 = <[rd := n]> (delete src f)
  | Dir =>
      ¬ src `prefix_of` rd
      /\ exists f' : FS,
           f1 = move_tree src rd f'
           /\ (forall q, ¬ q `prefix_of` rd -> f' !! q = f !! q)
           /\ (forall q nd, f !! q = Some nd -> f' !! q = Some nd)
  end.

(** The command of the probe in [run]. *)
Definition probe_cmd (env : Env) (label : string) : list string :=
  ["flock"; "--nonblock"; "--conflict-exit-code"; "200";
   str_path (lockpath env label); "/bin/true"].

(** The session is there to connect to: its directory, a regular log file
    with content [log0], and no directory in the place of the init script. *)
Definition connectable (env : Env) (label : string) (f : FS)
    (log0 : list byte) : Prop :=
  f !! basepath env label = Some Dir
  /\ f !! logpath env label = Some (File log0)
  /\ is_dir f (initpath env label) = false.

(** The invocations [parse_arguments] lets through: [list] alone, or
    [create] or [connect] with one more argument. *)
Definition well_formed_argv (args : list string) : bool :=
  match args with
  | [_; c] => String.eqb c "list"
  | [_; c; _] => String.eqb c "create" || String.eqb c "connect"
  | _ => false
  end.

(** Every character is in the class [[-0-9a-zA-Z]]. *)
Fixpoint all_safe (s : string) : bool :=
  match s with
  | EmptyString => true
  | String c s' => safe_char c && all_safe s'
  end.

(** What remains of [run] once the spawn is on the trace: the spawned
    command, then the second part of [run]. *)
Definition after_spawn (env : Env) (label : string) : Py unit :=
  (flock (lock_held_at_spawn env) (lockpath env label)
     (bash env (read env label))
   ≫= fun c => ret (waitstatus c))
  ≫= run_disconnect env label.

(** The command that [run] spawns. *)
Definition spawn_cmd (env : Env) (label : string) : list string :=
  command_bash (str_path (lockpath env label)) "/bin/bash"
    (str_path (initpath env label)).

(** The name [list] prints for an entry of the file system: that of a
    directory directly below [base], nothing otherwise. *)
Definition session_name (base : list string) (e : list string * node)
    : option string :=
  match e.2 with
  | Dir => if bool_decide (path_parent e.1 = base)
           then Some (path_name e.1) else None
  | File _ => None
  end.

(** The lines that [list] prints for the names [names]. *)
Definition printed (names : list string) : list event :=
  (fun n => Stdout (list_byte_of_string (n +:+ LF))) <$> names.

(* ===================================================================== *)
(** * Concrete sessions *)

Definition home_u : list string := ["home"; "u"].

(** The directory of the session [build] of the user [u]. *)
Definition rot_dir : list string := home_u // ".pshaw" // "build".

Definition rot_log : list byte :=
  list_byte_of_string ("one" +:+ LF +:+ "two" +:+ LF +:+ "three" +:+ LF).

Definition rot_state : State :=
  mkState {[ rot_dir := Dir; rot_dir // "log" := File rot_log ]} [].

Definition demo_log : list byte :=
  list_byte_of_string ("$ ls" +:+ LF +:+ "notes" +:+ LF).

(** The session [build] of the user [u], connected to before. *)
Definition fs_build : gmap (list string) node :=
  {[ home_u // ".pshaw" := Dir;
     rot_dir := Dir;
     rot_dir // "workdir" := File (list_byte_of_string "/home/u/proj");
     rot_dir // "log" := File demo_log;
     rot_dir // "history" := File (list_byte_of_string ("ls" +:+ LF));
     rot_dir // "lock" := File [] ]}.

(** The same session with its history file missing. *)
Definition fs_build_no_history : gmap (list string) node :=
  delete (rot_dir // "history") fs_build.

(** An invocation by the user [u] from [/home/u/proj]; the shell, when it
    runs, prints a prompt and leaves the file system alone. *)
Definition demo_env (args : list string) (shell : string)
    (held_at_probe held_at_spawn : bool) : Env :=
  mkEnv args {[ "SHELL" := shell ]} home_u (home_u // "proj")
    held_at_probe held_at_spawn (Exited 0)
    (list_byte_of_string "$ ") (fun f => f).

(** The state in which the connection to that session ends. *)
Definition no_history_end : State :=
  Eval vm_compute in
    (run_session
       (demo_env ["pshaw"; "connect"; "build"] "/bin/bash" false false)
       "build" (mkState fs_build_no_history [])).2.

(** The states in which the connection to the session with its history
    ends, and in which [run] then returns. *)
Definition build_end : State :=
  Eval vm_compute in
    (run_session
       (demo_env ["pshaw"; "connect"; "build"] "/bin/bash" false false)
       "build" (mkState fs_build [])).2.

Definition build_done : State :=
  Eval vm_compute in
    (run (demo_env ["pshaw"; "connect"; "build"] "/bin/bash" false false)
       "build" (mkState fs_build [])).2.

(** A connection to [build] by the user [u]. *)
Definition connect_env : Env :=
  demo_env ["pshaw"; "connect"; "build"] "/bin/bash" false false.

(** The same invocation with no [SHELL] in the environment. *)
Definition no_shell_env : Env :=
  mkEnv ["pshaw"; "connect"; "build"] ∅ home_u (home_u // "proj")
    false false (Exited 0) [] (fun f => f).

(** The session [build] with a directory where the backup of the log
    goes, and with its log file missing. *)
Definition fs_build_old_dir : gmap (list string) node :=
  <[rot_dir // "log.old" := Dir]> fs_build.

Definition fs_build_no_log : gmap (list string) node :=
  delete (rot_dir // "log") fs_build.

(** A sessions directory with the sessions [build] and [alpha] and a
    regular file beside them. *)
Definition fs_sessions : gmap (list string) node :=
  <[home_u // ".pshaw" // "alpha" := Dir]>
    (<[home_u // ".pshaw" // "notes.txt" := File []]> fs_build).

(** A home with no sessions directory yet, and a regular file where the
    home should be. *)
Definition fs_home_only : gmap (list string) node :=
  {[ ["home"] := Dir; home_u := Dir ]}.

Definition fs_home_file : gmap (list string) node :=
  {[ ["home"] := Dir; home_u := File [] ]}.

(** The same, with a shell that saves one command to the history of the
    session [label] before it ends. *)
Definition typing_env (args : list string) (label : string) : Env :=
  mkEnv args {[ "SHELL" := "/bin/bash" ]} home_u (home_u // "proj")
    false false (Exited 0)
    (list_byte_of_string ("$ ls" +:+ LF +:+ "$ "))
    (fun f => <[home_u // ".pshaw" // label // "history" :=
                  File (list_byte_of_string ("ls" +:+ LF))]> f).

(* ===================================================================== *)
(** * Lines and [tail] *)

Section Lines.

Lemma is_nl_true b : is_nl b = true -> b = nl.
Proof. apply Byte.byte_dec_bl. Qed.

Lemma concat_lines bs : concat (lines bs) = bs.
Proof.
  induction bs as [|b bs IH]; [done|]. simpl.
  destruct (is_nl b); simpl; [by rewrite IH|].
  destruct (lines bs) as [|l ls]; simpl in *; by rewrite <- IH.
Qed.

Lemma lines_wf bs : wf_lines (lines bs).
Proof.
  induction bs as [|b bs IH]; simpl; [constructor|].
  destruct (is_nl b) eqn:Hb.
  - apply is_nl_true in Hb as ->. by apply (wf_closed []).
  - inversion IH as [|l Hne Hl|body ls Hbody Hls]; subst.
    + apply wf_open; [done|]. by repeat constructor.
    + apply wf_open; [done|]. by constructor.
    + apply (wf_closed (b :: body)); [by constructor|done].
Qed.

Lemma lines_open l : l ≠ [] -> Forall not_nl l -> lines l = [l].
Proof.
  induction l as [|b l IH]; [done|]. intros _ H.
  apply Forall_cons in H as [Hb Hl]. simpl. rewrite Hb.
  destruct l as [|b' l]; [done|]. by rewrite IH.
Qed.

Lemma lines_closed body rest :
  Forall not_nl body -> lines (body ++ nl :: rest) = (body ++ [nl]) :: lines rest.
Proof.
  induction body as [|b body IH]; intros H; [done|].
  apply Forall_cons in H as [Hb Hl]. simpl. rewrite Hb. by rewrite IH.
Qed.

Lemma lines_concat ls : wf_lines ls -> lines (concat ls) = ls.
Proof.
  induction 1 as [|l Hne Hl|body ls Hbody Hls IH]; simpl.
  - done.
  - rewrite app_nil_r. by apply lines_open.
  - rewrite <- app_assoc. simpl. rewrite lines_closed by done. by rewrite IH.
Qed.

Lemma wf_lines_drop n ls : wf_lines ls -> wf_lines (drop n ls).
Proof.
  intros H. revert n. induction H as [|l Hne Hl|body ls Hbody Hls IH]; intros n.
  - rewrite drop_nil. constructor.
  - destruct n; simpl; [by constructor|]. rewrite drop_nil. constructor.
  - destruct n; simpl; [by constructor|]. apply IH.
Qed.

Lemma lines_tail_n size bs :
  lines (tail_n size bs)
  = drop (length (lines bs) - N.to_nat size) (lines bs).
Proof.
  unfold tail_n.
  replace (N.to_nat (N.of_nat (length (lines bs)) - size))
    with (length (lines bs) - N.to_nat size)%nat by lia.
  apply lines_concat, wf_lines_drop, lines_wf.
Qed.

Lemma tail_n_all size bs :
  (length (lines bs) <= N.to_nat size)%nat -> tail_n size bs = bs.
Proof.
  intros H. unfold tail_n.
  replace (N.to_nat (N.of_nat (length (lines bs)) - size)) with 0%nat by lia.
  apply concat_lines.
Qed.

End Lines.


#[local] Arguments is_dir : simpl never.
#[local] Arguments exists_ : simpl never.
#[local] Arguments tail_n : simpl never.
#[local] Arguments truncate : simpl never.
#[local] Arguments run_session : simpl never.
#[local] Arguments run_disconnect : simpl never.
#[local] Arguments run : simpl never.
#[local] Arguments create : simpl never.
#[local] Arguments connect : simpl never.
#[local] Arguments list_sessions : simpl never.

Ltac py_unfold :=
  unfold mbind, Py_bind, bind, get_fs, put_fs, ret, raise, exit, emit, when.
Ltac py_run := py_unfold; cbn.

Lemma is_dir_lookup (f : FS) p : is_dir f p = true <-> f !! p = Some Dir.
Proof. unfold is_dir. destruct (f !! p) as [[]|]; naive_solver. Qed.


Lemma is_dir_false_ne (f : FS) p q :
  is_dir f p = true -> is_dir f q = false -> p ≠ q.
Proof. intros Hp Hq ->. congruence. Qed.

Lemma is_dir_file_ne (f : FS) p q c :
  is_dir f p = true -> f !! q = Some (File c) -> p ≠ q.
Proof. intros Hp Hq ->. apply is_dir_lookup in Hp. congruence. Qed.

Lemma is_dir_insert_file (f : FS) p q c :
  is_dir f p = true -> p ≠ q -> is_dir (<[q := File c]> f) p = true.
Proof.
  intros Hp Hne. apply is_dir_lookup. rewrite lookup_insert_ne by done.
  by apply is_dir_lookup.
Qed.

Section Monad.
Context {A B : Type}.

Lemma bind_ok (m : Py A) (k : A -> Py B) s a s' :
  m s = (inl a, s') -> (m ≫= k) s = k a s'.
Proof. intros H. unfold mbind, Py_bind, bind. by rewrite H. Qed.

Lemma bind_ret_l (a : A) (k : A -> Py B) s : (ret a ≫= k) s = k a s.
Proof. reflexivity. Qed.

Lemma bind_abort (m : Py A) (k : A -> Py B) s e s' :
  m s = (inr e, s') -> (m ≫= k) s = (inr e, s').
Proof. intros H. unfold mbind, Py_bind, bind. by rewrite H. Qed.

Lemma bind_inv_ok (m : Py A) (k : A -> Py B) s b s2 :
  (m ≫= k) s = (inl b, s2) ->
  exists a s1, m s = (inl a, s1) /\ k a s1 = (inl b, s2).
Proof.
  unfold mbind, Py_bind, bind. destruct (m s) as [[a|e] s1]; [eauto|done].
Qed.
End Monad.

Lemma write_bytes_ok p data s :
  is_dir (fs s) (path_parent p) = true ->
  is_dir (fs s) p = false ->
  write_bytes p data s = (inl tt, mkState (<[p := File data]> (fs s)) (trace s)).
Proof.
  intros Hpar Hp. apply is_dir_lookup in Hpar. unfold is_dir in Hp.
  unfold write_bytes, check_writable. py_run. rewrite Hpar.
  by destruct (fs s !! p) as [[]|].
Qed.

Lemma shutil_move_file src dst s c :
  fs s !! src = Some (File c) ->
  is_dir (fs s) dst = false ->
  is_dir (fs s) (path_parent dst) = true ->
  shutil_move src dst s =
    (inl tt, mkState (<[dst := File c]> (delete src (fs s))) (trace s)).
Proof.
  intros Hsrc Hdst Hpar. unfold shutil_move. py_run.
  by rewrite Hdst; cbn; rewrite Hsrc, Hpar.
Qed.

Lemma truncate_file path oldpath size s c :
  path ≠ oldpath ->
  fs s !! path = Some (File c) ->
  is_dir (fs s) oldpath = false ->
  is_dir (fs s) (path_parent path) = true ->
  is_dir (fs s) (path_parent oldpath) = true ->
  truncate path oldpath size s =
    (inl tt,
     mkState (<[path := File (tail_n size c)]>
                (<[oldpath := File c]> (fs s)))
             (trace s ++ [Subprocess ["tail"; "-n"; pretty size; str_path oldpath]])).
Proof.
  intros Hne Hp Hold Hpp Hpo.
  pose proof (is_dir_file_ne _ _ _ _ Hpp Hp) as Hn1.
  pose proof (is_dir_false_ne _ _ _ Hpp Hold) as Hn2.
  unfold truncate.
  erewrite bind_ok by (by apply shutil_move_file).
  unfold open_wb. erewrite bind_ok; cycle 1.
  { apply write_bytes_ok; cbn.
    - apply is_dir_insert_file; [|done]. apply is_dir_lookup.
      rewrite lookup_delete_ne by done. by apply is_dir_lookup.
    - unfold is_dir. rewrite lookup_insert_ne, lookup_delete_eq; done. }
  unfold fd_write. py_run.
  rewrite lookup_insert_ne, lookup_insert_eq by done. cbn.
  f_equal. f_equal. apply map_eq. intros q.
  destruct (decide (q = path)) as [->|Hq].
  - by rewrite !lookup_insert_eq.
  - rewrite !(lookup_insert_ne _ path) by done.
    destruct (decide (q = oldpath)) as [->|Hq'].
    + by rewrite !lookup_insert_eq.
    + rewrite !(lookup_insert_ne _ oldpath) by done. by rewrite lookup_delete_ne.
Qed.

(* ===================================================================== *)
(** * The init script *)

Section Format.
#[local] Arguments String.append !_ _ / : simpl nomatch.

Lemma append_assoc s1 s2 s3 : (s1 +:+ s2) +:+ s3 = s1 +:+ (s2 +:+ s3).
Proof. induction s1 as [|c s1 IH]; cbn; [done|]. by rewrite IH. Qed.

Lemma format_init_bash_data (data : gmap string string)
    label rcpath workpath historypath :
  data !! "label" = Some label ->
  data !! "rcpath" = Some rcpath ->
  data !! "workpath" = Some workpath ->
  data !! "historypath" = Some historypath ->
  format init_bash data
  = Some (unlines
            [""; "";
             "PSHAW_LABEL=" +:+ label;
             "source " +:+ rcpath;
             "";
             "shopt -s histappend";
             "HISTFILE=" +:+ historypath;
             "cd `cat " +:+ workpath +:+ "`";
             "PROMPT_COMMAND=" +:+ dq +:+ "history -a; pwd > " +:+ workpath
               +:+ "; $PROMPT_COMMAND" +:+ dq;
             "";
             "echo === Connected to session " +:+ label +:+ " ===";
             ""]).
Proof.
  intros Hl Hr Hw Hh. unfold format, unlines. cbn [foldr].
  rewrite !append_assoc.
  set (t := init_bash). vm_compute in t. subst t.
  do 6 (cbn -[lookup]; rewrite ?Hl, ?Hr, ?Hw, ?Hh). reflexivity.
Qed.

End Format.

Lemma format_init_data env label :
  is_Some (format init_bash (init_data env label)).
Proof.
  eexists. unfold init_data. by apply format_init_bash_data; simplify_map_eq.
Qed.



(* ===================================================================== *)
(** * Rotation *)

(** C1.  When the file at [path] has more lines than [size], [truncate]
    leaves at [path] exactly the last [size] lines of the original content,
    in their order, and at [oldpath] the whole original content.  The two
    paths differ, [oldpath] is not a directory, and both lie in existing
    directories. *)
Theorem truncate_keeps_last_lines path oldpath (size : N) s c :
  path ≠ oldpath ->
  fs s !! path = Some (File c) ->
  is_dir (fs s) oldpath = false ->
  is_dir (fs s) (path_parent path) = true ->
  is_dir (fs s) (path_parent oldpath) = true ->
  (N.to_nat size < length (lines c))%nat ->
  exists s' c',
    truncate path oldpath size s = (inl tt, s')
    /\ fs s' !! path = Some (File c')
    /\ lines c' = drop (length (lines c) - N.to_nat size) (lines c)
    /\ length (lines c') = N.to_nat size
    /\ fs s' !! oldpath = Some (File c).
Proof.
  intros Hne Hp Hold Hpp Hpo Hlt.
  eexists _, (tail_n size c). split; [by apply truncate_file|].
  cbn. rewrite lookup_insert_eq, lookup_insert_ne, lookup_insert_eq by done.
  rewrite lines_tail_n, length_drop. repeat split; lia.
Qed.

Lemma truncate_keeps_last_lines_witness :
  exists s' c',
    truncate (rot_dir // "log") (rot_dir // "log.old") 2 rot_state
      = (inl tt, s')
    /\ fs s' !! (rot_dir // "log") = Some (File c')
    /\ lines c' = [list_byte_of_string ("two" +:+ LF);
                   list_byte_of_string ("three" +:+ LF)]
    /\ length (lines c') = 2%nat
    /\ fs s' !! (rot_dir // "log.old") = Some (File rot_log).
Proof.
  apply (truncate_keeps_last_lines (rot_dir // "log") (rot_dir // "log.old")
           2 rot_state rot_log); [done|reflexivity ..|vm_compute; lia].
Defined.

(** C10.  When the file at [path] has at most [size] lines, for a [size]
    that [tail] accepts as a count, [truncate] leaves its content as it
    was, and a second [truncate] gives the same content at [path] as the
    first. *)
Theorem truncate_short_file_unchanged path oldpath (size : N) s c :
  (size < 2 ^ 64)%N ->
  path ≠ oldpath ->
  fs s !! path = Some (File c) ->
  is_dir (fs s) oldpath = false ->
  is_dir (fs s) (path_parent path) = true ->
  is_dir (fs s) (path_parent oldpath) = true ->
  (length (lines c) <= N.to_nat size)%nat ->
  exists s1 s2,
    truncate path oldpath size s = (inl tt, s1)
    /\ fs s1 !! path = Some (File c)
    /\ (truncate path oldpath size;; truncate path oldpath size) s
       = (inl tt, s2)
    /\ fs s2 !! path = fs s1 !! path.
Proof.
  intros _ Hne Hp Hold Hpp Hpo Hle.
  pose proof (is_dir_file_ne _ _ _ _ Hpp Hp) as Hn1.
  pose proof (is_dir_false_ne _ _ _ Hpp Hold) as Hn2.
  pose proof (truncate_file path oldpath size s c Hne Hp Hold Hpp Hpo) as H1.
  rewrite (tail_n_all _ _ Hle) in H1.
  set (s1 := mkState (<[path := File c]> (<[oldpath := File c]> (fs s))) _)
    in H1.
  assert (fs s1 !! path = Some (File c)) as Hp1
    by (cbn; apply lookup_insert_eq).
  assert (truncate path oldpath size s1
          = (inl tt,
             mkState (<[path := File (tail_n size c)]>
                        (<[oldpath := File c]> (fs s1)))
               (trace s1 ++ [Subprocess ["tail"; "-n"; pretty size;
                                         str_path oldpath]]))) as H2.
  { apply truncate_file; cbn; try done.
    - unfold is_dir. by rewrite lookup_insert_ne, lookup_insert_eq.
    - by do 2 (apply is_dir_insert_file; [|done]).
    - destruct (decide (path_parent oldpath = path)) as [E|E].
      + rewrite E in Hpo. apply is_dir_lookup in Hpo. congruence.
      + apply is_dir_insert_file; [|done].
        apply is_dir_insert_file; [done|].
        by apply (is_dir_false_ne (fs s)). }
  rewrite (tail_n_all _ _ Hle) in H2.
  eexists s1, _. split; [done|]. split; [done|]. split.
  - erewrite bind_ok by exact H1. exact H2.
  - cbn. by rewrite !lookup_insert_eq.
Qed.

Lemma truncate_short_file_unchanged_witness :
  exists s1 s2,
    truncate (rot_dir // "log") (rot_dir // "log.old") 3 rot_state
      = (inl tt, s1)
    /\ fs s1 !! (rot_dir // "log") = Some (File rot_log)
    /\ (truncate (rot_dir // "log") (rot_dir // "log.old") 3;;
        truncate (rot_dir // "log") (rot_dir // "log.old") 3) rot_state
       = (inl tt, s2)
    /\ fs s2 !! (rot_dir // "log") = fs s1 !! (rot_dir // "log").
Proof.
  apply (truncate_short_file_unchanged (rot_dir // "log")
           (rot_dir // "log.old") 3 rot_state rot_log);
    [reflexivity|done|reflexivity ..|vm_compute; lia].
Defined.

(* ===================================================================== *)
(** * Usage errors and session creation *)

Lemma usage_run s :
  usage s = (inr (Exit 1), mkState (fs s) (trace s ++ [Stderr usage_message])).
Proof. reflexivity. Qed.

Lemma create_existing env label s :
  exists_ (fs s) (basepath env label) = true ->
  create env label s =
    (inr (Exit 1),
     mkState (fs s)
       (trace s ++ [Stderr ("Cannot create session: " +:+ dq +:+ label +:+ dq
                            +:+ " already exists." +:+ LF);
                    Stderr usage_message])).
Proof.
  intros H. unfold create, path_exists, usage, stderr_write. py_run.
  rewrite H. cbn. by rewrite <- app_assoc.
Qed.

Lemma parse_arguments_label env prog cmd label s :
  argv env = [prog; cmd; label] ->
  cmd = "create" \/ cmd = "connect" ->
  parse_arguments env s =
    (inl {[ "command" := cmd; "label" := label ]},
     if valid_label_match label then s
     else mkState (fs s)
            (trace s ++ [Stderr ("Invalid label " +:+ label
                                 +:+ ": Must be [-a-zA-Z0-9]+" +:+ LF)])).
Proof.
  intros Hargv Hcmd. unfold parse_arguments, sys_argv, stderr_write.
  rewrite Hargv. py_run.
  destruct Hcmd as [-> | ->]; cbn; destruct (valid_label_match label); cbn;
    by destruct s.
Qed.

(** C8.  [create] on a valid label whose session directory exists writes
    its complaint and the usage text to error output, exits with status 1
    and leaves the file system as it was. *)
Theorem create_existing_fails env prog label s :
  argv env = [prog; "create"; label] ->
  valid_label_match label = true ->
  exists_ (fs s) (basepath env label) = true ->
  exists s',
    main env s = (inr (Exit 1), s')
    /\ exit_status (main env s).1 = 1
    /\ fs s' = fs s
    /\ trace s' =
       trace s ++ [Stderr ("Cannot create session: " +:+ dq +:+ label +:+ dq
                           +:+ " already exists." +:+ LF);
                   Stderr usage_message].
Proof.
  intros Hargv Hvalid Hex. unfold main.
  erewrite bind_ok by (eapply parse_arguments_label; eauto).
  rewrite Hvalid. unfold dict_get.
  rewrite lookup_insert_eq. cbn.
  rewrite lookup_insert_ne, lookup_singleton_eq by done. cbn.
  py_run. rewrite (create_existing _ _ _ Hex). eauto.
Qed.

Lemma mkdir_from_ok rest : forall done (f f1 : FS),
  mkdir_from done rest f = inl f1 ->
  (rest ≠ [] -> f1 !! (done ++ rest) = Some Dir)
  /\ (forall q, (length (done ++ rest) < length q)%nat -> f1 !! q = f !! q).
Proof.
  induction rest as [|c rest IH]; intros done f f1 H; simpl in H.
  { by inversion H. }
  assert (forall f', (f' = f \/ f' = <[done ++ [c] := Dir]> f) ->
            f' !! (done ++ [c]) = Some Dir ->
            mkdir_from (done ++ [c]) rest f' = inl f1 ->
            (f1 !! (done ++ c :: rest) = Some Dir)
            /\ (forall q, (length (done ++ c :: rest) < length q)%nat ->
                          f1 !! q = f !! q)) as Hstep.
  { intros f' Hf' Hdir Hrec. destruct (IH _ _ _ Hrec) as [Hd Hq].
    rewrite <- app_assoc in Hd, Hq. simpl in Hd, Hq. split.
    - destruct rest as [|c' rest]; [|by apply Hd].
      simpl in Hrec. by inversion Hrec; subst.
    - intros q Hlen. rewrite (Hq q Hlen).
      destruct Hf' as [-> | ->]; [done|].
      apply lookup_insert_ne. intros <-.
      rewrite !length_app in Hlen. simpl in Hlen. lia. }
  destruct (f !! (done ++ [c])) as [[|]|] eqn:E; [done| |].
  - destruct (Hstep f) as [? ?]; auto.
  - destruct (Hstep (<[done ++ [c] := Dir]> f)) as [? ?]; auto.
    apply lookup_insert_eq.
Qed.

Lemma path_parent_div p name : path_parent (p // name) = p.
Proof. apply removelast_last. Qed.

Lemma path_name_div p name : path_name (p // name) = name.
Proof. apply last_last. Qed.

Lemma path_div_inj p q a b : p // a = q // b -> p = q /\ a = b.
Proof. intros H. by apply app_inj_tail in H. Qed.

Lemma path_div_ne p a : p // a ≠ p.
Proof.
  intros H. apply (f_equal length) in H. unfold path_div in H.
  rewrite length_app in H. simpl in H. lia.
Qed.

Lemma path_div_ne_name p a b : a ≠ b -> p // a ≠ p // b.
Proof. intros Hab H. by apply path_div_inj in H as [_ ?]. Qed.

Lemma path_div2_ne p a b c : p // a // b ≠ p // c.
Proof. intros H. apply path_div_inj in H as [H _]. by apply path_div_ne in H. Qed.

Lemma run_session_unknown_shell env label shell s :
  environ env !! "SHELL" = Some shell ->
  shell ≠ "/bin/bash" ->
  run_session env label s =
    (inr (Exit 1),
     mkState (fs s)
       (trace s ++ [Stderr ("Unknown Shell: " +:+ shell +:+ LF);
                    Stderr usage_message])).
Proof.
  intros Hsh Hne. unfold run_session. rewrite Hsh.
  apply String.eqb_neq in Hne. unfold usage, stderr_write. py_run.
  rewrite Hne. cbn. by rewrite <- app_assoc.
Qed.

Lemma run_unknown_shell env label shell s :
  environ env !! "SHELL" = Some shell ->
  shell ≠ "/bin/bash" ->
  run env label s =
    (inr (Exit 1),
     mkState (fs s)
       (trace s ++ [Stderr ("Unknown Shell: " +:+ shell +:+ LF);
                    Stderr usage_message])).
Proof.
  intros Hsh Hne. unfold run.
  by erewrite bind_abort by (by apply run_session_unknown_shell).
Qed.

Lemma main_calls env prog cmd label s :
  argv env = [prog; cmd; label] ->
  cmd = "create" \/ cmd = "connect" ->
  valid_label_match label = true ->
  main env s
  = (if String.eqb cmd "create" then create env label
     else connect env label) s.
Proof.
  intros Hargv Hcmd Hvalid. unfold main.
  erewrite bind_ok by (eapply parse_arguments_label; eauto).
  rewrite Hvalid. unfold dict_get.
  rewrite lookup_insert_eq. cbn.
  rewrite lookup_insert_ne, lookup_singleton_eq by done.
  by destruct Hcmd as [-> | ->].
Qed.

Lemma other_shell_at_calls env label shell s :
  environ env !! "SHELL" = Some shell ->
  shell ≠ "/bin/bash" ->
  (exists_ (fs s) (basepath env label) = true ->
   connect env label s =
     (inr (Exit 1),
      mkState (fs s)
        (trace s ++ [Stderr ("Unknown Shell: " +:+ shell +:+ LF);
                     Stderr usage_message])))
  /\ (forall f1,
        exists_ (fs s) (basepath env label) = false ->
        mkdir_from [] (basepath env label) (fs s) = inl f1 ->
        fs s !! workpath env label = None ->
        fs s !! logpath env label = None ->
        f1 !! basepath env label = Some Dir
        /\ create env label s =
           (inr (Exit 1),
            mkState
              (<[logpath env label := File []]>
                 (<[workpath env label :=
                      File (list_byte_of_string (str_path (cwd env)))]> f1))
              (trace s ++ [Stderr ("Unknown Shell: " +:+ shell +:+ LF);
                           Stderr usage_message]))).
Proof.
  intros Hsh Hne. split.
  - intros Hex. unfold connect, path_exists. py_run. rewrite Hex. cbn.
    by rewrite (run_unknown_shell _ _ _ _ Hsh Hne).
  - intros f1 Hex Hmk Hwork Hlog.
    destruct (mkdir_from_ok _ _ _ _ Hmk) as [Hbase Hlong].
    assert (f1 !! basepath env label = Some Dir) as Hdir.
    { apply Hbase. unfold basepath, path_div. intros H.
      by apply app_eq_nil in H as [_ ?]. }
    assert (forall name, f1 !! (basepath env label // name)
                         = fs s !! (basepath env label // name)) as Hsame.
    { intros name. apply Hlong. unfold path_div.
      rewrite !length_app. simpl. lia. }
    split; [done|].
    unfold create, path_exists, mkdir_parents. py_run. rewrite Hex. cbn.
    rewrite Hmk. cbn. unfold workpath, logpath in *.
    match goal with |- context [write_bytes ?p ?d ?st] =>
      rewrite (write_bytes_ok p d st) end; cycle 1.
    { cbn. rewrite path_parent_div. by apply is_dir_lookup. }
    { cbn. unfold is_dir. by rewrite Hsame, Hwork. }
    cbn. unfold touch. py_run. rewrite path_parent_div.
    rewrite !lookup_insert_ne
      by first [apply path_div_ne | by apply path_div_ne_name].
    rewrite Hdir, Hsame, Hlog. cbn.
    by erewrite run_unknown_shell by done.
Qed.

(** C3, as the code has it.  Take a label that the label test accepts and
    a [SHELL] set to something else than [/bin/bash].  [connect] to an
    existing session reports the shell, prints the usage text, exits with
    status 1 and leaves the file system as it was; [create] of a new
    session does the same only after it has made the session directory,
    written the workdir file and created the empty log, which stay
    behind. *)
Theorem unsupported_shell env prog label shell s :
  valid_label_match label = true ->
  environ env !! "SHELL" = Some shell ->
  shell ≠ "/bin/bash" ->
  (argv env = [prog; "connect"; label] ->
   exists_ (fs s) (basepath env label) = true ->
   main env s =
     (inr (Exit 1),
      mkState (fs s)
        (trace s ++ [Stderr ("Unknown Shell: " +:+ shell +:+ LF);
                     Stderr usage_message])))
  /\ (forall f1,
        argv env = [prog; "create"; label] ->
        exists_ (fs s) (basepath env label) = false ->
        mkdir_from [] (basepath env label) (fs s) = inl f1 ->
        fs s !! workpath env label = None ->
        fs s !! logpath env label = None ->
        f1 !! basepath env label = Some Dir
        /\ main env s =
           (inr (Exit 1),
            mkState
              (<[logpath env label := File []]>
                 (<[workpath env label :=
                      File (list_byte_of_string (str_path (cwd env)))]> f1))
              (trace s ++ [Stderr ("Unknown Shell: " +:+ shell +:+ LF);
                           Stderr usage_message]))).
Proof.
  intros Hvalid Hsh Hne.
  destruct (other_shell_at_calls env label shell s Hsh Hne) as [Hc Hk].
  split.
  - intros Hargv Hex.
    rewrite (main_calls env prog "connect" label s) by auto. by apply Hc.
  - intros f1 Hargv Hex Hmk Hwork Hlog.
    rewrite (main_calls env prog "create" label s) by auto. by apply Hk.
Qed.

(* ===================================================================== *)
(** * The trace only grows *)

Section Extends.
Context {A B : Type}.

Lemma extends_ret (a : A) : extends (ret a).
Proof. intros s. exists []. by rewrite app_nil_r. Qed.

Lemma extends_raise e : extends (@raise A e).
Proof. intros s. exists []. by rewrite app_nil_r. Qed.

Lemma extends_exit code : extends (@exit A code).
Proof. intros s. exists []. by rewrite app_nil_r. Qed.

Lemma extends_bind (m : Py A) (k : A -> Py B) :
  extends m -> (forall a, extends (k a)) -> extends (m ≫= k).
Proof.
  intros Hm Hk s. destruct (Hm s) as [r1 H1].
  unfold mbind, Py_bind, bind. destruct (m s) as [[a|e] s1]; simpl in *.
  - destruct (Hk a s1) as [r2 H2]. exists (r1 ++ r2).
    by rewrite H2, H1, app_assoc.
  - by exists r1.
Qed.
End Extends.

Lemma extends_get_fs : extends get_fs.
Proof. intros s. exists []. by rewrite app_nil_r. Qed.

Lemma extends_put_fs f : extends (put_fs f).
Proof. intros s. exists []. by rewrite app_nil_r. Qed.

Lemma extends_emit e : extends (emit e).
Proof. intros s. by exists [e]. Qed.

Create HintDb extends.
#[local] Hint Resolve extends_get_fs extends_put_fs extends_emit : extends.
#[local] Hint Resolve extends_ret extends_raise extends_exit : extends.

Ltac extends_tac :=
  repeat first
    [ apply extends_bind; [|intros ?]
    | solve [auto with extends]
    | match goal with
      | |- extends (match ?x with _ => _ end) => destruct x
      end
    | progress unfold when, stderr_write, stdout_write, print, usage ].

Lemma extends_check_writable p : extends (check_writable p).
Proof. unfold check_writable. extends_tac. Qed.
#[local] Hint Resolve extends_check_writable : extends.

Lemma extends_write_bytes p data : extends (write_bytes p data).
Proof. unfold write_bytes. extends_tac. Qed.

Lemma extends_fd_append p data : extends (fd_append p data).
Proof. unfold fd_append. extends_tac. Qed.

Lemma extends_shutil_move src dst : extends (shutil_move src dst).
Proof. unfold shutil_move. extends_tac. Qed.
#[local] Hint Resolve extends_write_bytes extends_fd_append
  extends_shutil_move : extends.

Lemma extends_truncate path oldpath size : extends (truncate path oldpath size).
Proof. unfold truncate, open_wb, fd_write. extends_tac. Qed.
#[local] Hint Resolve extends_truncate : extends.

Lemma extends_flock held lock (command : Py child_exit) :
  extends command -> extends (flock held lock command).
Proof. intros H. unfold flock. extends_tac. Qed.

Lemma extends_bash env label : extends (bash env (read env label)).
Proof. unfold bash, read. extends_tac. Qed.
#[local] Hint Resolve extends_flock extends_bash : extends.

Lemma extends_run_disconnect env label status :
  extends (run_disconnect env label status).
Proof. unfold run_disconnect. extends_tac. Qed.

Lemma stdout_of_app tr1 tr2 :
  stdout_of (tr1 ++ tr2) = stdout_of tr1 ++ stdout_of tr2.
Proof. unfold stdout_of. by rewrite omap_app, concat_app. Qed.

Lemma before_spawn_app tr cmd rest :
  spawned tr = false -> before_spawn (tr ++ PtySpawn cmd :: rest) = tr.
Proof.
  induction tr as [|e tr IH]; [done|]. intros H.
  destruct e; simpl in *; solve [done | by rewrite IH].
Qed.

Lemma spawned_app tr cmd rest : spawned (tr ++ PtySpawn cmd :: rest) = true.
Proof. unfold spawned. rewrite existsb_app. simpl. apply orb_true_r. Qed.

(* ===================================================================== *)
(** * Connecting: the probe, the init script and the replay *)

Lemma probe_conflict env label s :
  is_Some (fs s !! lockpath env label) ->
  lock_held_at_probe env = true ->
  subprocess_run (probe_cmd env label)
    (flock (lock_held_at_probe env) (lockpath env label) bin_true) s
  = (inl 200, mkState (fs s) (trace s ++ [Subprocess (probe_cmd env label)])).
Proof.
  intros [n Hn] Hheld. unfold subprocess_run, flock, bin_true. py_run.
  by rewrite Hn, Hheld.
Qed.

Lemma probe_free env label s :
  lock_held_at_probe env = false \/ fs s !! lockpath env label = None ->
  fs s !! basepath env label = Some Dir ->
  subprocess_run (probe_cmd env label)
    (flock (lock_held_at_probe env) (lockpath env label) bin_true) s
  = (inl 0,
     mkState (lock_opened (lockpath env label) (fs s))
       (trace s ++ [Subprocess (probe_cmd env label)])).
Proof.
  intros Hfree Hbase. unfold subprocess_run, flock, bin_true, lock_opened.
  py_run. unfold lockpath at 2. rewrite path_parent_div.
  apply is_dir_lookup in Hbase. rewrite Hbase.
  destruct (fs s !! lockpath env label) as [n|] eqn:E; [|done].
  by destruct Hfree as [-> | ?].
Qed.

Lemma lock_opened_lookup_ne (lock : list string) (f : FS) q :
  q ≠ lock -> lock_opened lock f !! q = f !! q.
Proof.
  intros Hne. unfold lock_opened.
  destruct (f !! lock); [done|]. by apply lookup_insert_ne.
Qed.

Lemma run_session_spawns env label s log0 :
  environ env !! "SHELL" = Some "/bin/bash" ->
  lock_held_at_probe env = false \/ fs s !! lockpath env label = None ->
  connectable env label (fs s) log0 ->
  exists script,
    format init_bash (init_data env label) = Some script
    /\ run_session env label s =
       (flock (lock_held_at_spawn env) (lockpath env label)
          (bash env (read env label))
        ≫= fun c => ret (waitstatus c))
         (mkState
            (<[initpath env label := File (list_byte_of_string script)]>
               (lock_opened (lockpath env label) (fs s)))
            (trace s ++
             [Subprocess (probe_cmd env label);
              Stdout [x1b; x63];
              Stdout log0;
              PtySpawn (command_bash (str_path (lockpath env label))
                          "/bin/bash" (str_path (initpath env label)))])).
Proof.
  intros Hsh Hfree (Hbase & Hlog & Hinit).
  destruct (format_init_data env label) as [script Hscript].
  exists script. split; [done|].
  unfold run_session. rewrite Hsh, Hscript. rewrite bind_ret_l.
  change (negb ("/bin/bash" =? "/bin/bash")%string) with false.
  cbn [when]. rewrite bind_ret_l. fold (probe_cmd env label).
  erewrite bind_ok by (by apply probe_free).
  change (0 =? 200) with false. cbn [when]. rewrite !bind_ret_l.
  assert (lock_opened (lockpath env label) (fs s) !! basepath env label
          = Some Dir) as Hbase'.
  { rewrite lock_opened_lookup_ne; [done|]. symmetry. apply path_div_ne. }
  erewrite bind_ok; cycle 1.
  { apply write_bytes_ok; cbn.
    - unfold initpath. rewrite path_parent_div. by apply is_dir_lookup.
    - unfold is_dir. rewrite lock_opened_lookup_ne; [done|].
      by apply path_div_ne_name. }
  unfold stdout_write, read_bytes, open_ab, check_writable, pty_spawn. py_run.
  assert (forall v, <[initpath env label := v]>
                      (lock_opened (lockpath env label) (fs s))
                    !! logpath env label = Some (File log0)) as Hlog'.
  { intros v. rewrite lookup_insert_ne by (by apply path_div_ne_name).
    rewrite lock_opened_lookup_ne; [done|]. by apply path_div_ne_name. }
  rewrite Hlog'. cbn. unfold logpath at 1. rewrite path_parent_div.
  rewrite lookup_insert_ne by apply path_div_ne. rewrite Hbase'. cbn.
  rewrite Hlog'. cbn. rewrite Hlog'. cbn. by rewrite <- !app_assoc.
Qed.

Lemma run_from_spawn env label s st (child : Py Z) :
  run_session env label s = child st ->
  run env label s = (child ≫= run_disconnect env label) st.
Proof. intros H. unfold run, mbind, Py_bind, bind. by rewrite H. Qed.

(** C5, as the code has it.  On a connection that gets past the shell check
    and the probe, what has been written to the terminal when the shell is
    spawned is the reset sequence [ESC c] followed by the bytes the log held
    when the connection began, and nothing else. *)
Theorem replay_after_clear env label s log0 :
  environ env !! "SHELL" = Some "/bin/bash" ->
  lock_held_at_probe env = false \/ fs s !! lockpath env label = None ->
  connectable env label (fs s) log0 ->
  spawned (trace s) = false ->
  spawned (trace (run env label s).2) = true
  /\ stdout_of (before_spawn (trace (run env label s).2))
     = stdout_of (trace s) ++ [x1b; x63] ++ log0.
Proof.
  intros Hsh Hfree Hconn Hnot.
  destruct (run_session_spawns _ _ _ _ Hsh Hfree Hconn) as (script & _ & Hrun).
  rewrite (run_from_spawn _ _ _ _ _ Hrun).
  match goal with |- context [(?m ≫= ?k) ?st] =>
    assert (extends (m ≫= k)) as Hext
      by (apply extends_bind;
          [extends_tac | intros; apply extends_run_disconnect]);
    destruct (Hext st) as [rest ->]
  end.
  cbn [trace].
  replace (trace s ++
           [Subprocess (probe_cmd env label); Stdout [x1b; x63]; Stdout log0;
            PtySpawn (command_bash (str_path (lockpath env label))
                        "/bin/bash" (str_path (initpath env label)))])
    with ((trace s ++ [Subprocess (probe_cmd env label); Stdout [x1b; x63];
                       Stdout log0])
          ++ [PtySpawn (command_bash (str_path (lockpath env label))
                          "/bin/bash" (str_path (initpath env label)))])
    by (by rewrite <- app_assoc).
  rewrite <- app_assoc. cbn [app]. split; [apply spawned_app|].
  rewrite before_spawn_app.
  - rewrite stdout_of_app. f_equal. unfold stdout_of. cbn.
    by rewrite app_nil_r.
  - unfold spawned in *. rewrite existsb_app, Hnot. reflexivity.
Qed.

Lemma run_session_probe_conflict env label s :
  environ env !! "SHELL" = Some "/bin/bash" ->
  is_Some (fs s !! lockpath env label) ->
  lock_held_at_probe env = true ->
  run_session env label s =
    (inr (Exit 1),
     mkState (fs s)
       (trace s ++ [Subprocess (probe_cmd env label);
                    Stderr (locked_message label (lockpath env label))])).
Proof.
  intros Hsh Hlock Hheld.
  unfold run_session. rewrite Hsh. rewrite bind_ret_l.
  change (negb ("/bin/bash" =? "/bin/bash")%string) with false.
  cbn [when]. rewrite bind_ret_l. fold (probe_cmd env label).
  erewrite bind_ok by (by apply probe_conflict).
  change (200 =? 200) with true. unfold stderr_write. py_run.
  by rewrite <- app_assoc.
Qed.

(** C7, as the code has it.  When the probe finds the lock of the session
    held, the program reports the conflict and how to clear it, exits with
    status 1, and has started nothing but the probe: the file system is as
    it was.  (A conflict that only the spawned command meets comes after the
    init script has been rewritten.) *)
Theorem probe_conflict_no_mutation env label s :
  environ env !! "SHELL" = Some "/bin/bash" ->
  is_Some (fs s !! lockpath env label) ->
  lock_held_at_probe env = true ->
  exists_ (fs s) (basepath env label) = true ->
  exists s',
    connect env label s = (inr (Exit 1), s')
    /\ fs s' = fs s
    /\ trace s' =
       trace s ++ [Subprocess (probe_cmd env label);
                   Stderr (locked_message label (lockpath env label))].
Proof.
  intros Hsh Hlock Hheld Hex.
  unfold connect, path_exists. py_run. rewrite Hex. cbn.
  unfold run.
  erewrite bind_abort by (by apply run_session_probe_conflict). eauto.
Qed.

(* ===================================================================== *)
(** * Disconnecting *)

Lemma makedirs_from_ok rest : forall pre (f f1 : FS),
  makedirs_from pre rest f = inl f1 ->
  (forall q, ¬ q `prefix_of` (pre ++ rest) -> f1 !! q = f !! q)
  /\ (forall q nd, f !! q = Some nd -> f1 !! q = Some nd).
Proof.
  induction rest as [|c rest IH]; intros pre f f1 H; simpl in H.
  { by inversion H. }
  assert (pre ++ [c] `prefix_of` pre ++ c :: rest) as Hpre.
  { exists rest. by rewrite <- app_assoc. }
  destruct (f !! (pre ++ [c])) as [[|]|] eqn:E; [by destruct rest| |].
  - destruct (IH _ _ _ H) as [H1 H2]. rewrite <- app_assoc in H1. by split.
  - destruct (IH _ _ _ H) as [H1 H2]. rewrite <- app_assoc in H1. split.
    + intros q Hq. rewrite H1 by done. apply lookup_insert_ne.
      by intros <-.
    + intros q nd Hq. apply H2. rewrite lookup_insert_ne; [done|].
      intros <-. congruence.
Qed.

Lemma makedirs_from_err rest : forall pre (f : FS) e,
  makedirs_from pre rest f = inr e -> exists k p, e = Exn k OpMove p.
Proof.
  induction rest as [|c rest IH]; intros pre f e H; simpl in H; [done|].
  destruct (f !! (pre ++ [c])) as [[|]|]; [|by eapply IH..].
  destruct rest; injection H as <-; eauto.
Qed.

Lemma move_tree_outside (src dst : list string) (f : FS) q :
  ¬ src `prefix_of` q -> ¬ dst `prefix_of` q ->
  move_tree src dst f !! q = f !! q.
Proof.
  intros Hs Hd. unfold move_tree. rewrite lookup_union_r.
  - apply option_eq. intros nd. rewrite map_lookup_filter_Some. tauto.
  - apply not_elem_of_list_to_map_1. rewrite <- list_fmap_compose.
    intros Hin. apply list_elem_of_fmap in Hin as (e & -> & _).
    apply Hd. cbn. by eexists.
Qed.

Lemma move_tree_left (src dst : list string) (f : FS) q :
  src `prefix_of` q -> ¬ dst `prefix_of` q ->
  move_tree src dst f !! q = None.
Proof.
  intros Hs Hd. unfold move_tree. rewrite lookup_union_r.
  - apply map_lookup_filter_None. right. intros nd _ Hn. by apply Hn.
  - apply not_elem_of_list_to_map_1. rewrite <- list_fmap_compose.
    intros Hin. apply list_elem_of_fmap in Hin as (e & -> & _).
    apply Hd. cbn. by eexists.
Qed.

Lemma shutil_move_inv src dst s r s' :
  shutil_move src dst s = (r, s') ->
  (exists k p, r = inr (Raise (Exn k OpMove p)) /\ s' = s)
  \/ (r = inl tt /\ s' = s /\ src = dst)
  \/ (exists n rd f1,
        r = inl tt
        /\ (rd = dst \/ rd = dst // path_name src)
        /\ fs s !! src = Some n
        /\ moved_to (fs s) src rd n f1
        /\ s' = mkState f1 (trace s)).
Proof.
  unfold shutil_move. py_run.
  set (rd := if is_dir (fs s) dst then dst // path_name src else dst).
  assert (rd = dst \/ rd = dst // path_name src) as Hrd
    by (subst rd; destruct (is_dir (fs s) dst); auto).
  clearbody rd.
  destruct (is_dir (fs s) dst && bool_decide (src = dst)) eqn:Hsame; cbn.
  { apply andb_true_iff in Hsame as [_ Heq%bool_decide_eq_true].
    intros [= <- <-]. right; left. by destruct s. }
  destruct (is_dir (fs s) dst && exists_ (fs s) rd); cbn.
  { intros [= <- <-]. left. eauto. }
  destruct (fs s !! src) as [[c|]|] eqn:Hsrc; cbn.
  - destruct (is_dir (fs s) (path_parent rd)) eqn:Hpar; cbn;
      intros [= <- <-]; [|left; eauto].
    right; right. exists (File c), rd, (<[rd := File c]> (delete src (fs s))).
    by repeat split.
  - destruct (bool_decide (src `prefix_of` rd)) eqn:Hpre; cbn.
    { intros [= <- <-]. left. eauto. }
    apply bool_decide_eq_false in Hpre.
    assert (forall f' : FS,
              (forall q, ¬ q `prefix_of` rd -> f' !! q = fs s !! q) ->
              (forall q nd, fs s !! q = Some nd -> f' !! q = Some nd) ->
              (inl tt, mkState (move_tree src rd f') (trace s)) = (r, s') ->
              exists n rd0 f1,
                r = inl tt /\ (rd0 = dst \/ rd0 = dst // path_name src)
                /\ Some Dir = Some n /\ moved_to (fs s) src rd0 n f1
                /\ s' = mkState f1 (trace s)) as Hmoved.
    { intros f' H1 H2 [= <- <-]. exists Dir, rd, (move_tree src rd f').
      repeat split; try done. by exists f'. }
    assert (forall e1 : exn,
              (exists k p, e1 = Exn k OpMove p) ->
              (inr (Raise e1), s) = (r, s') ->
              exists k p, r = inr (Raise (Exn k OpMove p)) /\ s' = s) as Herr.
    { intros e1 (k & p & ->) [= <- <-]. eauto. }
    destruct (fs s !! rd) as [[|]|] eqn:Hdst; cbn.
    + intros [= <- <-]. left. eauto.
    + destruct (is_dir (fs s) (path_parent rd)); cbn.
      * intros H. right; right. by apply (Hmoved (fs s)).
      * destruct (makedirs_from [] rd (fs s)) as [f'|e1] eqn:Hmk; cbn.
        -- destruct (makedirs_from_ok _ _ _ _ Hmk) as [H1 H2].
           intros H. right; right. by apply (Hmoved f').
        -- intros H. left. eapply Herr; [|done].
           by eapply makedirs_from_err.
    + destruct (is_dir (fs s) (path_parent rd)); cbn.
      * intros H. right; right. by apply (Hmoved (fs s)).
      * destruct (makedirs_from [] rd (fs s)) as [f'|e1] eqn:Hmk; cbn.
        -- destruct (makedirs_from_ok _ _ _ _ Hmk) as [H1 H2].
           intros H. right; right. by apply (Hmoved f').
        -- intros H. left. eapply Herr; [|done].
           by eapply makedirs_from_err.
  - intros [= <- <-]. left. eauto.
Qed.

Lemma bind_inv_abort {A B} (m : Py A) (k : A -> Py B) s e s' :
  (m ≫= k) s = (inr e, s') ->
  m s = (inr e, s') \/ exists a s1, m s = (inl a, s1) /\ k a s1 = (inr e, s').
Proof.
  unfold mbind, Py_bind, bind.
  destruct (m s) as [[a|e1] s1]; [eauto|]. intros [= <- <-]. by left.
Qed.

Lemma write_bytes_inv p data s u s' :
  write_bytes p data s = (inl u, s') ->
  s' = mkState (<[p := File data]> (fs s)) (trace s).
Proof.
  unfold write_bytes, check_writable. py_run.
  destruct (fs s !! path_parent p) as [[|]|]; cbn; try done.
  destruct (fs s !! p) as [[|]|]; cbn; by intros [= <-].
Qed.

Lemma prefix_div_self (p : list string) c : ¬ (p // c) `prefix_of` p.
Proof.
  intros H%prefix_length. unfold path_div in H.
  rewrite length_app in H. simpl in H. lia.
Qed.

Lemma prefix_div_div (p : list string) c d :
  (p // c) `prefix_of` (p // d) -> c = d.
Proof. intros H%prefix_app_inv. by apply prefix_cons_inv_1 in H. Qed.

Lemma prefix_div_div2 (p : list string) c d e :
  (p // c) `prefix_of` (p // d // e) -> c = d.
Proof.
  unfold path_div. rewrite <- app_assoc. intros H%prefix_app_inv.
  by apply prefix_cons_inv_1 in H.
Qed.

Lemma prefix_div2_div (p : list string) c d e :
  ¬ (p // c // d) `prefix_of` (p // e).
Proof.
  intros H%prefix_length. unfold path_div in H.
  rewrite !length_app in H. simpl in H. lia.
Qed.

Section TruncateInDir.
Variables (base : list string) (a b : string) (size : N).
Hypothesis Hab : a ≠ b.

(** What a move out of [base // a] to [base // b], or into it, leaves
    around it. *)
Lemma moved_to_frame (f f1 : FS) n rd :
  rd = base // b \/ rd = base // b // a ->
  moved_to f (base // a) rd n f1 ->
  f1 !! (base // a) = None
  /\ (forall nd, f !! base = Some nd -> f1 !! base = Some nd)
  /\ (forall c, c ≠ a -> c ≠ b -> f1 !! (base // c) = f !! (base // c)).
Proof.
  intros Hrd Hm.
  assert (forall c, c ≠ b -> ¬ rd `prefix_of` (base // c)) as Hrd_c.
  { intros c Hc. destruct Hrd as [-> | ->];
      [by intros ?%prefix_div_div | apply prefix_div2_div]. }
  assert (forall c, c ≠ b -> ¬ (base // c) `prefix_of` rd) as Hc_rd.
  { intros c Hc. destruct Hrd as [-> | ->];
      [by intros ?%prefix_div_div | by intros ?%prefix_div_div2]. }
  assert (¬ rd `prefix_of` base) as Hrd_base.
  { destruct Hrd as [-> | ->]; [apply prefix_div_self|].
    intros H%prefix_length. unfold path_div in H.
    rewrite !length_app in H. simpl in H. lia. }
  destruct n as [data|]; cbn in Hm.
  - destruct Hm as [_ ->].
    assert (forall q, ¬ rd `prefix_of` q -> rd ≠ q) as Hne
      by (by intros q Hq ->).
    split; [|split].
    + rewrite lookup_insert_ne by (apply Hne; by apply Hrd_c).
      apply lookup_delete_eq.
    + intros nd Hnd. rewrite lookup_insert_ne by by apply Hne.
      rewrite lookup_delete_ne by apply path_div_ne. done.
    + intros c Hca Hcb.
      rewrite lookup_insert_ne by (apply Hne; by apply Hrd_c).
      apply lookup_delete_ne. by apply path_div_ne_name.
  - destruct Hm as (_ & f' & -> & H1 & H2). split; [|split].
    + apply move_tree_left; [done | by apply Hrd_c].
    + intros nd Hnd. rewrite move_tree_outside;
        [by apply H2 | apply prefix_div_self | done].
    + intros c Hca Hcb. rewrite move_tree_outside.
      * apply H1. by apply Hc_rd.
      * intros ?%prefix_div_div. congruence.
      * by apply Hrd_c.
Qed.

(** After the move out of [base // a], the file is written anew. *)
Lemma truncate_moved (f f1 : FS) t :
  f1 !! (base // a) = None ->
  (forall nd, f !! base = Some nd -> f1 !! base = Some nd) ->
  (forall c, c ≠ a -> c ≠ b -> f1 !! (base // c) = f !! (base // c)) ->
  forall r s',
    (open_wb (base // a);;
     emit (Subprocess ["tail"; "-n"; pretty size; str_path (base // b)]);;
     f2 ← get_fs;
     fd_write (base // a) (tail_stdout size (f2 !! (base // b))))
      (mkState f1 t)
    = (r, s') ->
    (forall c, c ≠ a -> c ≠ b -> fs s' !! (base // c) = f !! (base // c))
    /\ (is_dir f base = true -> is_dir (fs s') base = true)
    /\ (is_dir f base = true -> r = inl tt).
Proof.
  intros Ha Hb Hc r s' H. unfold open_wb in H.
  destruct (write_bytes (base // a) [] (mkState f1 t))
    as [[u|e] s2] eqn:Hw.
  - pose proof (write_bytes_inv _ _ _ _ _ Hw) as ->.
    erewrite bind_ok in H by exact Hw.
    unfold fd_write in H. revert H. py_run. intros [= <- <-]. cbn.
    split; [|split; [|done]].
    + intros c Hca Hcb.
      rewrite !lookup_insert_ne by (by apply path_div_ne_name).
      by apply Hc.
    + intros Hd%is_dir_lookup. apply is_dir_lookup.
      rewrite !lookup_insert_ne by apply path_div_ne. by apply Hb.
  - erewrite bind_abort in H by exact Hw. injection H as <- <-.
    revert Hw. unfold write_bytes, check_writable. py_run.
    rewrite path_parent_div, Ha.
    destruct (f1 !! base) as [[|]|] eqn:E; cbn; intros [= <- <-];
      (split; [by apply Hc|]); cbn;
      split; intros Hd%is_dir_lookup; apply Hb in Hd; congruence.
Qed.

Lemma truncate_inv s r s' :
  truncate (base // a) (base // b) size s = (r, s') ->
  (forall c, c ≠ a -> c ≠ b -> fs s' !! (base // c) = fs s !! (base // c))
  /\ (is_dir (fs s) base = true -> is_dir (fs s') base = true)
  /\ (r = inl tt -> is_Some (fs s !! (base // a)))
  /\ (is_dir (fs s) base = true ->
      r = inl tt \/ exists k p, r = inr (Raise (Exn k OpMove p))).
Proof.
  unfold truncate. intros H.
  destruct (shutil_move (base // a) (base // b) s) as [r1 s1] eqn:Hmove.
  destruct (shutil_move_inv _ _ _ _ _ Hmove)
    as [(k & p & -> & ->)
       | [(-> & -> & E) | (n & rd & f1 & -> & Hrd & Hn & Hm & ->)]].
  - erewrite bind_abort in H by exact Hmove. injection H as <- <-.
    split; [done|]. split; [done|]. split; [done|]. intros _. right. eauto.
  - by apply path_div_inj in E as [_ ?].
  - erewrite bind_ok in H by exact Hmove. rewrite path_name_div in Hrd.
    destruct (moved_to_frame _ _ _ _ Hrd Hm) as (Ha & Hb & Hc).
    destruct (truncate_moved _ _ _ Ha Hb Hc _ _ H) as (Hframe & Hbase & Hok).
    split; [done|]. split; [done|]. split; [by eauto|].
    intros Hd. left. by apply Hok.
Qed.
End TruncateInDir.

(** C9.  Take a connection whose [pty.spawn] has returned [status] in state
    [s1].  If [status] is not 200 and the session directory is there but
    holds no history file, [run] ends in an exception raised by
    [shutil.move]; and whenever [run] returns normally, both the log and the
    history file were there when the connection ended. *)
Theorem disconnect_needs_history env label s status s1 :
  run_session env label s = (inl status, s1) ->
  (status ≠ 200 ->
   is_dir (fs s1) (basepath env label) = true ->
   fs s1 !! historypath env label = None ->
   exists k p s2, run env label s = (inr (Raise (Exn k OpMove p)), s2))
  /\ (forall s',
        run env label s = (inl tt, s') ->
        is_Some (fs s1 !! logpath env label)
        /\ is_Some (fs s1 !! historypath env label)).
Proof.
  intros Hrs. unfold run. rewrite (bind_ok _ _ _ _ _ Hrs).
  unfold run_disconnect, logpath, historypath. split.
  - intros Hst Hdir Hhist. apply Z.eqb_neq in Hst. rewrite Hst. cbn [negb].
    destruct (truncate (basepath env label // "log")
                (basepath env label // "log.old") logsize s1)
      as [r s2] eqn:Hlog.
    destruct (truncate_inv (basepath env label) "log" "log.old" logsize
                ltac:(done) _ _ _ Hlog) as (Hframe & Hbase & _ & Hkind).
    destruct (Hkind Hdir) as [-> | (k & p & ->)]; cycle 1.
    { erewrite bind_abort by exact Hlog. eauto. }
    erewrite bind_ok by exact Hlog.
    destruct (truncate (basepath env label // "history")
                (basepath env label // "history.old") historysize s2)
      as [r2 s3] eqn:Hh.
    destruct (truncate_inv (basepath env label) "history" "history.old"
                historysize ltac:(done) _ _ _ Hh) as (_ & _ & Hsome & Hkind2).
    destruct Hkind2 as [-> | (k & p & ->)].
    + by apply Hbase.
    + destruct (Hsome eq_refl) as [n Hn].
      rewrite Hframe in Hn by done. congruence.
    + erewrite bind_abort by exact Hh. eauto.
  - intros s' H. destruct (status =? 200); cbn [negb] in H.
    { revert H. unfold stderr_write. by py_run. }
    apply bind_inv_ok in H as ([] & s2 & Hlog & H).
    apply bind_inv_ok in H as ([] & s3 & Hh & _).
    destruct (truncate_inv (basepath env label) "log" "log.old" logsize
                ltac:(done) _ _ _ Hlog) as (Hframe & _ & Hsome & _).
    destruct (truncate_inv (basepath env label) "history" "history.old"
                historysize ltac:(done) _ _ _ Hh) as (_ & _ & Hsome2 & _).
    split; [by apply Hsome|]. rewrite <- Hframe by done. by apply Hsome2.
Qed.

Lemma create_existing_fails_witness :
  exists s',
    main (demo_env ["pshaw"; "create"; "build"] "/bin/bash" false false)
      (mkState fs_build []) = (inr (Exit 1), s')
    /\ exit_status
         (main (demo_env ["pshaw"; "create"; "build"] "/bin/bash" false false)
            (mkState fs_build [])).1 = 1
    /\ fs s' = fs_build
    /\ trace s' =
       [Stderr ("Cannot create session: " +:+ dq +:+ "build" +:+ dq
                +:+ " already exists." +:+ LF);
        Stderr usage_message].
Proof.
  apply (create_existing_fails
           (demo_env ["pshaw"; "create"; "build"] "/bin/bash" false false)
           "pshaw" "build" (mkState fs_build [])); reflexivity.
Defined.

(** C3 as stated fails for [create]: under [/bin/zsh] the program exits
    with status 1, but the session directory, its workdir file and its
    empty log are there afterwards. *)
Lemma create_other_shell_leaves_session :
  environ (demo_env ["pshaw"; "create"; "build"] "/bin/zsh" false false)
    !! "SHELL" = Some "/bin/zsh"
  /\ (main (demo_env ["pshaw"; "create"; "build"] "/bin/zsh" false false)
        (mkState ∅ [])).1 = inr (Exit 1)
  /\ fs (main (demo_env ["pshaw"; "create"; "build"] "/bin/zsh" false false)
           (mkState ∅ [])).2
     ≠ ∅
  /\ fs (main (demo_env ["pshaw"; "create"; "build"] "/bin/zsh" false false)
           (mkState ∅ [])).2 !! rot_dir = Some Dir
  /\ fs (main (demo_env ["pshaw"; "create"; "build"] "/bin/zsh" false false)
           (mkState ∅ [])).2 !! (rot_dir // "workdir")
     = Some (File (list_byte_of_string "/home/u/proj"))
  /\ fs (main (demo_env ["pshaw"; "create"; "build"] "/bin/zsh" false false)
           (mkState ∅ [])).2 !! (rot_dir // "log") = Some (File []).
Proof.
  split; [reflexivity|]. split; [by vm_compute|].
  split; [|by vm_compute].
  intros H. apply (f_equal (fun f : gmap (list string) node => f !! rot_dir)) in H.
  by vm_compute in H.
Qed.

Lemma unsupported_shell_witness :
  main (demo_env ["pshaw"; "connect"; "build"] "/bin/zsh" false false)
    (mkState fs_build [])
  = (inr (Exit 1),
     mkState fs_build
       [Stderr ("Unknown Shell: /bin/zsh" +:+ LF); Stderr usage_message])
  /\ exists f1,
       f1 !! rot_dir = Some Dir
       /\ main (demo_env ["pshaw"; "create"; "build"] "/bin/zsh" false false)
            (mkState ∅ [])
          = (inr (Exit 1),
             mkState
               (<[rot_dir // "log" := File []]>
                  (<[rot_dir // "workdir" :=
                       File (list_byte_of_string "/home/u/proj")]> f1))
               [Stderr ("Unknown Shell: /bin/zsh" +:+ LF);
                Stderr usage_message]).
Proof.
  split.
  - apply (proj1 (unsupported_shell
                    (demo_env ["pshaw"; "connect"; "build"] "/bin/zsh"
                       false false)
                    "pshaw" "build" "/bin/zsh" (mkState fs_build [])
                    eq_refl eq_refl ltac:(done))); reflexivity.
  - eexists.
    apply (proj2 (unsupported_shell
                    (demo_env ["pshaw"; "create"; "build"] "/bin/zsh"
                       false false)
                    "pshaw" "build" "/bin/zsh" (mkState ∅ [])
                    eq_refl eq_refl ltac:(done))); reflexivity.
Defined.

(** C5 as stated fails: on a connection to [build] the terminal has
    received two more bytes than the log holds when the shell is spawned. *)
Lemma replay_is_not_the_log_alone :
  fs_build !! logpath (demo_env ["pshaw"; "connect"; "build"] "/bin/bash"
                         false false) "build"
  = Some (File demo_log)
  /\ spawned (trace (main (demo_env ["pshaw"; "connect"; "build"] "/bin/bash"
                             false false) (mkState fs_build [])).2) = true
  /\ stdout_of
       (before_spawn
          (trace (main (demo_env ["pshaw"; "connect"; "build"] "/bin/bash"
                          false false) (mkState fs_build [])).2))
     ≠ demo_log
  /\ stdout_of
       (before_spawn
          (trace (main (demo_env ["pshaw"; "connect"; "build"] "/bin/bash"
                          false false) (mkState fs_build [])).2))
     = [x1b; x63] ++ demo_log.
Proof. by vm_compute. Qed.

Lemma replay_after_clear_witness :
  spawned
    (trace (run (demo_env ["pshaw"; "connect"; "build"] "/bin/bash"
                   false false) "build" (mkState fs_build [])).2) = true
  /\ stdout_of
       (before_spawn
          (trace (run (demo_env ["pshaw"; "connect"; "build"] "/bin/bash"
                         false false) "build" (mkState fs_build [])).2))
     = [] ++ [x1b; x63] ++ demo_log.
Proof.
  apply (replay_after_clear
           (demo_env ["pshaw"; "connect"; "build"] "/bin/bash" false false)
           "build" (mkState fs_build []) demo_log).
  - reflexivity.
  - by left.
  - by repeat split.
  - reflexivity.
Defined.

(** C7 as stated fails when only the spawned command meets the conflict:
    the probe found the lock free, the init script has been written since,
    and the file system is no longer what it was. *)
Lemma spawn_conflict_mutates :
  lock_held_at_probe
    (demo_env ["pshaw"; "connect"; "build"] "/bin/bash" false true) = false
  /\ lock_held_at_spawn
       (demo_env ["pshaw"; "connect"; "build"] "/bin/bash" false true) = true
  /\ is_Some (fs_build !! (rot_dir // "lock"))
  /\ fs_build !! (rot_dir // "init.bash") = None
  /\ is_Some
       (fs (main (demo_env ["pshaw"; "connect"; "build"] "/bin/bash"
                    false true) (mkState fs_build [])).2
        !! (rot_dir // "init.bash"))
  /\ fs (main (demo_env ["pshaw"; "connect"; "build"] "/bin/bash"
                 false true) (mkState fs_build [])).2
     ≠ fs_build.
Proof.
  split; [done|]. split; [done|]. split; [by eexists|]. split; [done|].
  split; [by vm_compute; eexists|].
  intros H.
  apply (f_equal (fun f : gmap (list string) node =>
                    f !! (rot_dir // "init.bash"))) in H.
  by vm_compute in H.
Qed.

Lemma probe_conflict_no_mutation_witness :
  exists s',
    connect (demo_env ["pshaw"; "connect"; "build"] "/bin/bash" true true)
      "build" (mkState fs_build []) = (inr (Exit 1), s')
    /\ fs s' = fs_build
    /\ trace s' =
       [Subprocess
          (probe_cmd
             (demo_env ["pshaw"; "connect"; "build"] "/bin/bash" true true)
             "build");
        Stderr
          (locked_message "build"
             (lockpath
                (demo_env ["pshaw"; "connect"; "build"] "/bin/bash" true true)
                "build"))].
Proof.
  apply (probe_conflict_no_mutation
           (demo_env ["pshaw"; "connect"; "build"] "/bin/bash" true true)
           "build" (mkState fs_build [])).
  - reflexivity.
  - by eexists.
  - reflexivity.
  - reflexivity.
Defined.

Lemma disconnect_needs_history_witness :
  (exists k p s2,
     run (demo_env ["pshaw"; "connect"; "build"] "/bin/bash" false false)
       "build" (mkState fs_build_no_history [])
     = (inr (Raise (Exn k OpMove p)), s2))
  /\ is_Some (fs build_end !! (rot_dir // "log"))
  /\ is_Some (fs build_end !! (rot_dir // "history")).
Proof.
  assert (run_session
            (demo_env ["pshaw"; "connect"; "build"] "/bin/bash" false false)
            "build" (mkState fs_build_no_history [])
          = (inl 0, no_history_end)) as Hrs by (vm_compute; reflexivity).
  assert (run_session
            (demo_env ["pshaw"; "connect"; "build"] "/bin/bash" false false)
            "build" (mkState fs_build [])
          = (inl 0, build_end)) as Hrs' by (vm_compute; reflexivity).
  split.
  - apply (proj1 (disconnect_needs_history _ _ _ _ _ Hrs)).
    + done.
    + vm_compute; reflexivity.
    + vm_compute; reflexivity.
  - apply (proj2 (disconnect_needs_history _ _ _ _ _ Hrs') build_done).
    vm_compute; reflexivity.
Defined.

(* ===================================================================== *)
(** * Where the code departs from what it sets out to do *)

Lemma waitstatus_exited_ne_200 code : waitstatus (Exited code) ≠ 200.
Proof.
  unfold waitstatus. intros H.
  assert ((code mod 256 * 256) mod 256 = 200 mod 256) as E by (by rewrite H).
  rewrite Z_mod_mult in E. done.
Qed.

Lemma run_disconnect_200 env label s :
  run_disconnect env label 200 s =
    (inr (Exit 1),
     mkState (fs s)
       (trace s ++ [Stderr (locked_message label (lockpath env label))])).
Proof. reflexivity. Qed.

(** C2, evaluated.  [create] with the label [a_b], which is outside the
    safe set: the label is reported as invalid, but no usage text is printed
    and nothing exits; the session [a_b] is created, its shell is spawned,
    and the program ends with status 0. *)
Theorem invalid_label_is_used :
  valid_label_match "a_b" = false
  /\ (main (typing_env ["pshaw"; "create"; "a_b"] "a_b") (mkState ∅ [])).1
     = inl tt
  /\ stderr_of
       (trace (main (typing_env ["pshaw"; "create"; "a_b"] "a_b")
                 (mkState ∅ [])).2)
     = "Invalid label a_b: Must be [-a-zA-Z0-9]+" +:+ LF
  /\ spawned
       (trace (main (typing_env ["pshaw"; "create"; "a_b"] "a_b")
                 (mkState ∅ [])).2) = true
  /\ fs (main (typing_env ["pshaw"; "create"; "a_b"] "a_b") (mkState ∅ [])).2
     !! (home_u // ".pshaw" // "a_b") = Some Dir.
Proof. by vm_compute. Qed.

(** C6, evaluated.  The lock is taken between the probe and the spawn, so
    the spawned [flock] exits with the conflict code 200.  [pty.spawn]
    returns the wait status 51200, the test against 200 fails, and the
    program rotates log and history, reports no conflict and ends with
    status 0. *)
Theorem spawn_conflict_rotates :
  waitstatus (Exited 200) = 51200
  /\ (run_session
        (demo_env ["pshaw"; "connect"; "build"] "/bin/bash" false true)
        "build" (mkState fs_build [])).1 = inl 51200
  /\ (main (demo_env ["pshaw"; "connect"; "build"] "/bin/bash" false true)
        (mkState fs_build [])).1 = inl tt
  /\ stderr_of
       (trace (main (demo_env ["pshaw"; "connect"; "build"] "/bin/bash"
                       false true) (mkState fs_build [])).2) = ""
  /\ drop 4
       (trace (main (demo_env ["pshaw"; "connect"; "build"] "/bin/bash"
                       false true) (mkState fs_build [])).2)
     = [Subprocess ["tail"; "-n"; "1000000"; "/home/u/.pshaw/build/log.old"];
        Subprocess ["tail"; "-n"; "1000000";
                    "/home/u/.pshaw/build/history.old"];
        Stdout (list_byte_of_string
                  ("=== Disconnected from session " +:+ dq +:+ "build" +:+ dq
                   +:+ " ===" +:+ LF +:+ LF))]
  /\ fs (main (demo_env ["pshaw"; "connect"; "build"] "/bin/bash" false true)
           (mkState fs_build [])).2 !! (rot_dir // "log.old")
     = Some (File demo_log).
Proof. by vm_compute. Qed.


(* ===================================================================== *)
(** * Further properties: the command line *)

(** X1.  Any invocation that is not [list] alone, or [create] or [connect]
    with exactly one more argument, prints the usage text, exits with
    status 1 and changes nothing. *)
Theorem malformed_invocation_usage env s :
  well_formed_argv (argv env) = false ->
  main env s =
    (inr (Exit 1), mkState (fs s) (trace s ++ [Stderr usage_message])).
Proof.
  unfold main, parse_arguments, sys_argv, usage, stderr_write.
  destruct (argv env) as [|a0 [|a1 [|a2 [|a3 rest]]]]; cbn; try done.
  - intros H. py_run. by rewrite H.
  - py_run. destruct (String.eqb a1 "list"); [done|]. cbn.
    by destruct (String.eqb a1 "create"), (String.eqb a1 "connect").
Qed.

Lemma malformed_invocation_usage_witness :
  main (demo_env ["pshaw"; "list"; "all"] "/bin/bash" false false)
    (mkState fs_build [])
  = (inr (Exit 1), mkState fs_build [Stderr usage_message]).
Proof.
  apply (malformed_invocation_usage
           (demo_env ["pshaw"; "list"; "all"] "/bin/bash" false false)
           (mkState fs_build [])).
  reflexivity.
Defined.

Section Labels.
#[local] Arguments String.append !_ _ / : simpl nomatch.

Lemma skip_safe_app t r :
  all_safe t = true -> skip_safe (t +:+ r) = skip_safe r.
Proof.
  induction t as [|c t IH]; [done|]. cbn. intros H.
  apply andb_true_iff in H as [-> Ht]. by apply IH.
Qed.

Lemma skip_safe_split s :
  exists t, all_safe t = true /\ s = t +:+ skip_safe s.
Proof.
  induction s as [|c s (t & Ht & Hs)]; [by exists ""|]. cbn.
  destruct (safe_char c) eqn:Hc.
  - exists (String c t). cbn. rewrite Hc, Ht. split; [done|]. by f_equal.
  - by exists "".
Qed.

Lemma at_dollar_iff r : at_dollar r = true <-> r = "" \/ r = LF.
Proof.
  unfold at_dollar. rewrite orb_true_iff, !bool_decide_eq_true. done.
Qed.

Lemma append_nil_r t : t +:+ "" = t.
Proof. induction t as [|c t IH]; [done|]. cbn. by rewrite IH. Qed.

(** X2.  The label test accepts exactly the non-empty strings of characters
    from [[-0-9a-zA-Z]], and those strings followed by one line feed. *)
Theorem valid_label_match_iff s :
  valid_label_match s = true
  <-> exists t, t ≠ "" /\ all_safe t = true /\ (s = t \/ s = t +:+ LF).
Proof.
  split.
  - destruct s as [|c s]; [done|]. cbn. intros H.
    apply andb_true_iff in H as [Hc Hd]. apply at_dollar_iff in Hd.
    destruct (skip_safe_split s) as (t & Ht & Hs).
    exists (String c t). split; [done|]. cbn. rewrite Hc, Ht.
    split; [done|].
    destruct Hd as [E | E]; rewrite E in Hs; [left|right]; f_equal;
      [by rewrite append_nil_r in Hs | done].
  - intros (t & Hne & Ht & Hs). destruct t as [|c t]; [done|].
    cbn in Ht. apply andb_true_iff in Ht as [Hc Ht].
    rewrite <- (append_nil_r t) in Hs at 1.
    destruct Hs as [-> | ->]; cbn; rewrite Hc, skip_safe_app by done; done.
Qed.

End Labels.

(** X3.  [connect] with a label that has no session directory reports that
    the session was not found, prints the usage text, exits with status 1
    and changes nothing. *)
Theorem connect_missing_session env prog label s :
  argv env = [prog; "connect"; label] ->
  valid_label_match label = true ->
  exists_ (fs s) (basepath env label) = false ->
  main env s =
    (inr (Exit 1),
     mkState (fs s)
       (trace s ++ [Stderr ("Cannot connect to session: " +:+ dq +:+ label
                            +:+ dq +:+ " not found" +:+ LF);
                    Stderr usage_message])).
Proof.
  intros Hargv Hvalid Hex. unfold main.
  erewrite bind_ok by (eapply parse_arguments_label; eauto).
  rewrite Hvalid. unfold dict_get.
  rewrite lookup_insert_eq. cbn.
  rewrite lookup_insert_ne, lookup_singleton_eq by done. py_run.
  unfold connect, path_exists, usage, stderr_write. py_run.
  rewrite Hex. cbn. by rewrite <- app_assoc.
Qed.

Lemma connect_missing_session_witness :
  main (demo_env ["pshaw"; "connect"; "tests"] "/bin/bash" false false)
    (mkState fs_build [])
  = (inr (Exit 1),
     mkState fs_build
       [Stderr ("Cannot connect to session: " +:+ dq +:+ "tests"
                +:+ dq +:+ " not found" +:+ LF);
        Stderr usage_message]).
Proof.
  apply (connect_missing_session
           (demo_env ["pshaw"; "connect"; "tests"] "/bin/bash" false false)
           "pshaw" "tests" (mkState fs_build [])); reflexivity.
Defined.

(** X4.  With no [SHELL] in the environment, [connect] to an existing
    session ends in a [KeyError] before anything is printed, started or
    written. *)
Theorem connect_without_shell env label s :
  environ env !! "SHELL" = None ->
  exists_ (fs s) (basepath env label) = true ->
  connect env label s = (inr (Raise (Exn KeyError OpEnviron [])), s).
Proof.
  intros Hsh Hex. unfold connect, path_exists. py_run. rewrite Hex. cbn.
  unfold run, run_session. rewrite Hsh. by destruct s.
Qed.

(* ===================================================================== *)
(** * Further properties: rotation *)

(** X5.  [truncate] of a path that is not there, below something that is,
    raises from the move and leaves everything as it was: no backup and no
    empty file are made.  The error is [FileNotFoundError] below a
    directory and [NotADirectoryError] below a regular file. *)
Theorem truncate_missing_file path oldpath size s above :
  fs s !! path = None ->
  fs s !! path_parent path = Some above ->
  is_dir (fs s) oldpath = false ->
  truncate path oldpath size s
  = (inr (Raise (Exn (match above with
                      | Dir => FileNotFoundError
                      | File _ => NotADirectoryError
                      end) OpMove path)), s).
Proof.
  intros Hp Habove Hold. unfold truncate, shutil_move, missing_kind. py_run.
  rewrite Hold. cbn. rewrite Hp, Habove. by destruct s, above.
Qed.

Lemma truncate_missing_file_witness :
  truncate (rot_dir // "history") (rot_dir // "history.old") historysize
    (mkState fs_build_no_history [])
  = (inr (Raise (Exn FileNotFoundError OpMove (rot_dir // "history"))),
     mkState fs_build_no_history [])
  /\ truncate (rot_dir // "log" // "history")
       (rot_dir // "log" // "history.old") historysize (mkState fs_build [])
     = (inr (Raise (Exn NotADirectoryError OpMove
                      (rot_dir // "log" // "history"))),
        mkState fs_build []).
Proof.
  split.
  - apply (truncate_missing_file (rot_dir // "history")
             (rot_dir // "history.old") historysize
             (mkState fs_build_no_history []) Dir); reflexivity.
  - apply (truncate_missing_file (rot_dir // "log" // "history")
             (rot_dir // "log" // "history.old") historysize
             (mkState fs_build []) (File demo_log)); reflexivity.
Defined.

Lemma write_bytes_abort p data s e s' :
  write_bytes p data s = (inr e, s') -> s' = s.
Proof.
  unfold write_bytes, check_writable. py_run.
  destruct (fs s !! path_parent p) as [[|]|]; cbn; try (by intros [= _ <-]).
  destruct (fs s !! p) as [[|]|]; cbn; by intros [= <-].
Qed.

Lemma truncate_rest_frame path oldpath size s1 r s' :
  (open_wb path;;
   emit (Subprocess ["tail"; "-n"; pretty size; str_path oldpath]);;
   f ← get_fs;
   fd_write path (tail_stdout size (f !! oldpath))) s1 = (r, s') ->
  forall q, q ≠ path -> fs s' !! q = fs s1 !! q.
Proof.
  intros H q Hq. unfold open_wb in H.
  destruct (write_bytes path [] s1) as [[u|e] s2] eqn:Hw.
  - pose proof (write_bytes_inv _ _ _ _ _ Hw) as ->.
    erewrite bind_ok in H by exact Hw.
    unfold fd_write in H. revert H. py_run. intros [= <- <-]. cbn.
    by rewrite !lookup_insert_ne.
  - pose proof (write_bytes_abort _ _ _ _ _ Hw) as ->.
    erewrite bind_abort in H by exact Hw. by injection H as <- <-.
Qed.

(** X6.  Whatever its outcome, [truncate] of a path that is not a
    directory touches no entry of the file system but [path], [oldpath] and
    the entry named like [path] below [oldpath]. *)
Theorem truncate_frame path oldpath size s q :
  is_dir (fs s) path = false ->
  q ≠ path ->
  q ≠ oldpath ->
  q ≠ oldpath // path_name path ->
  fs (truncate path oldpath size s).2 !! q = fs s !! q.
Proof.
  intros Hfile Hq1 Hq2 Hq3.
  destruct (truncate path oldpath size s) as [r s'] eqn:H. cbn.
  unfold truncate in H.
  destruct (shutil_move path oldpath s) as [r1 s1] eqn:Hmove.
  destruct (shutil_move_inv _ _ _ _ _ Hmove)
    as [(k & p & -> & ->)
       | [(-> & -> & E) | (n & rd & f1 & -> & Hrd & Hn & Hm & ->)]].
  - erewrite bind_abort in H by exact Hmove. by injection H as <- <-.
  - erewrite bind_ok in H by exact Hmove.
    by apply (truncate_rest_frame _ _ _ _ _ _ H).
  - erewrite bind_ok in H by exact Hmove.
    rewrite (truncate_rest_frame _ _ _ _ _ _ H) by done. cbn.
    destruct n as [data|].
    + destruct Hm as [_ ->].
      rewrite lookup_insert_ne by (by destruct Hrd as [-> | ->]).
      by apply lookup_delete_ne.
    + apply is_dir_lookup in Hn. congruence.
Qed.

Lemma truncate_frame_witness :
  fs (truncate (rot_dir // "log") (rot_dir // "log.old") logsize
        (mkState fs_build [])).2 !! (rot_dir // "history")
  = fs_build !! (rot_dir // "history").
Proof.
  apply (truncate_frame (rot_dir // "log") (rot_dir // "log.old") logsize
           (mkState fs_build []) (rot_dir // "history")); done.
Defined.

(** X7.  For a [size] that [tail] accepts as a count, the rotation of a
    regular file leaves at [path] a suffix of the original content, with as
    many lines as the original had or [size] lines, whichever is less: the
    file never keeps more than [size] lines. *)
Theorem truncate_bounded path oldpath (size : N) s c :
  (size < 2 ^ 64)%N ->
  path ≠ oldpath ->
  fs s !! path = Some (File c) ->
  is_dir (fs s) oldpath = false ->
  is_dir (fs s) (path_parent path) = true ->
  is_dir (fs s) (path_parent oldpath) = true ->
  exists s' c' before,
    truncate path oldpath size s = (inl tt, s')
    /\ fs s' !! path = Some (File c')
    /\ c = before ++ c'
    /\ length (lines c') = (length (lines c) `min` N.to_nat size)%nat.
Proof.
  intros _ Hne Hp Hold Hpp Hpo.
  eexists _, (tail_n size c),
    (concat (take (length (lines c) - N.to_nat size) (lines c))).
  split; [by apply truncate_file|]. cbn.
  rewrite lookup_insert_eq. split; [done|]. split.
  - rewrite <- (concat_lines c) at 1.
    rewrite <- (take_drop (length (lines c) - N.to_nat size) (lines c)) at 1.
    rewrite concat_app. f_equal. unfold tail_n. do 2 f_equal. lia.
  - rewrite lines_tail_n, length_drop. lia.
Qed.

Lemma truncate_bounded_witness :
  exists s' c' before,
    truncate (rot_dir // "log") (rot_dir // "log.old") 2 rot_state
      = (inl tt, s')
    /\ fs s' !! (rot_dir // "log") = Some (File c')
    /\ rot_log = before ++ c'
    /\ length (lines c') = (length (lines rot_log) `min` N.to_nat 2)%nat.
Proof.
  apply (truncate_bounded (rot_dir // "log") (rot_dir // "log.old")
           2 rot_state rot_log); [reflexivity|done|reflexivity ..].
Defined.

Lemma tail_n_idemp size c : tail_n size (tail_n size c) = tail_n size c.
Proof. apply tail_n_all. rewrite lines_tail_n, length_drop. lia. Qed.

(** X8.  Two rotations in a row give at [path] what one gives, for every
    [size] that [tail] accepts as a count; the backup, written over by the
    second, then holds the already truncated content and no longer the
    original. *)
Theorem truncate_twice path oldpath (size : N) s c :
  (size < 2 ^ 64)%N ->
  path ≠ oldpath ->
  fs s !! path = Some (File c) ->
  is_dir (fs s) oldpath = false ->
  is_dir (fs s) (path_parent path) = true ->
  is_dir (fs s) (path_parent oldpath) = true ->
  exists s2,
    (truncate path oldpath size;; truncate path oldpath size) s
    = (inl tt, s2)
    /\ fs s2 !! path = Some (File (tail_n size c))
    /\ fs s2 !! oldpath = Some (File (tail_n size c)).
Proof.
  intros _ Hne Hp Hold Hpp Hpo.
  pose proof (is_dir_file_ne _ _ _ _ Hpp Hp) as Hn1.
  pose proof (is_dir_false_ne _ _ _ Hpp Hold) as Hn2.
  erewrite bind_ok by (by apply truncate_file).
  eexists. split.
  - apply truncate_file; cbn; try done.
    + apply lookup_insert_eq.
    + unfold is_dir. by rewrite lookup_insert_ne, lookup_insert_eq.
    + by do 2 (apply is_dir_insert_file; [|done]).
    + destruct (decide (path_parent oldpath = path)) as [E|E].
      * rewrite E in Hpo. apply is_dir_lookup in Hpo. congruence.
      * apply is_dir_insert_file; [|done].
        apply is_dir_insert_file; [done|].
        by apply (is_dir_false_ne (fs s)).
  - cbn. rewrite tail_n_idemp, lookup_insert_eq.
    by rewrite lookup_insert_ne, lookup_insert_eq.
Qed.

Lemma truncate_twice_witness :
  exists s2,
    (truncate (rot_dir // "log") (rot_dir // "log.old") 2;;
     truncate (rot_dir // "log") (rot_dir // "log.old") 2) rot_state
    = (inl tt, s2)
    /\ fs s2 !! (rot_dir // "log") = Some (File (tail_n 2 rot_log))
    /\ fs s2 !! (rot_dir // "log.old") = Some (File (tail_n 2 rot_log)).
Proof.
  apply (truncate_twice (rot_dir // "log") (rot_dir // "log.old")
           2 rot_state rot_log); [reflexivity|done|reflexivity ..].
Defined.

(** X9.  When [oldpath] is a directory with no entry named like [path], the
    file is moved into it, [tail] gets nothing from the directory, and
    [path] is left empty: the live content is only in the directory. *)
Theorem truncate_into_directory path oldpath (size : N) s c :
  fs s !! path = Some (File c) ->
  is_dir (fs s) oldpath = true ->
  fs s !! (oldpath // path_name path) = None ->
  is_dir (fs s) (path_parent path) = true ->
  truncate path oldpath size s =
    (inl tt,
     mkState (<[path := File []]>
                (<[oldpath // path_name path := File c]> (fs s)))
       (trace s ++ [Subprocess ["tail"; "-n"; pretty size;
                                str_path oldpath]])).
Proof.
  intros Hp Hold Hnone Hpp.
  assert (path ≠ oldpath) as Hne
    by (intros ->; apply is_dir_lookup in Hold; congruence).
  assert (path ≠ oldpath // path_name path) as Hne2 by congruence.
  assert (path_parent path ≠ oldpath // path_name path) as Hne3
    by (intros E; rewrite E in Hpp; apply is_dir_lookup in Hpp; congruence).
  pose proof (is_dir_file_ne _ _ _ _ Hpp Hp) as Hn1.
  unfold truncate, shutil_move. py_run. rewrite Hold. cbn.
  rewrite bool_decide_eq_false_2 by done. cbn.
  unfold exists_ at 1. rewrite Hnone, Hp, path_parent_div, Hold. cbn.
  unfold open_wb, write_bytes, check_writable, fd_write. py_run.
  rewrite (lookup_insert_ne _ _ (path_parent path)) by done.
  rewrite lookup_delete_ne by done.
  apply is_dir_lookup in Hpp. rewrite Hpp.
  rewrite lookup_insert_ne, lookup_delete_eq by done. cbn.
  rewrite !(lookup_insert_ne _ _ oldpath), lookup_delete_ne
    by (try done; apply path_div_ne).
  apply is_dir_lookup in Hold. rewrite Hold. cbn.
  f_equal. f_equal. apply map_eq. intros q.
  destruct (decide (q = path)) as [->|Hq].
  - by rewrite !lookup_insert_eq.
  - rewrite !(lookup_insert_ne _ path) by done.
    destruct (decide (q = oldpath // path_name path)) as [->|Hq'].
    + by rewrite !lookup_insert_eq.
    + rewrite !(lookup_insert_ne _ (oldpath // path_name path)) by done.
      by rewrite lookup_delete_ne.
Qed.

(* ===================================================================== *)
(** * Further properties: the end of a connection *)

Section Disconnect.
Variables (env : Env) (label : string) (status : Z) (s : State).
Variable c : list byte.
Hypothesis Hstatus : status ≠ 200.
Hypothesis Hbase : fs s !! basepath env label = Some Dir.
Hypothesis Hlog : fs s !! logpath env label = Some (File c).
Hypothesis Hlogold : is_dir (fs s) (basepath env label // "log.old") = false.
Hypothesis Hhistold :
  is_dir (fs s) (basepath env label // "history.old") = false.

Lemma disconnect_log_rotated :
  truncate (logpath env label) (basepath env label // "log.old") logsize s
  = (inl tt,
     mkState (<[logpath env label := File (tail_n logsize c)]>
                (<[basepath env label // "log.old" := File c]> (fs s)))
       (trace s ++ [Subprocess ["tail"; "-n"; pretty logsize;
                      str_path (basepath env label // "log.old")]])).
Proof.
  apply truncate_file; try done.
  - by apply path_div_ne_name.
  - unfold logpath. rewrite path_parent_div. by apply is_dir_lookup.
  - rewrite path_parent_div. by apply is_dir_lookup.
Qed.

Lemma disconnect_after_log name :
  name ≠ "log" -> name ≠ "log.old" ->
  (<[logpath env label := File (tail_n logsize c)]>
     (<[basepath env label // "log.old" := File c]> (fs s)))
  !! (basepath env label // name)
  = fs s !! (basepath env label // name).
Proof.
  intros H1 H2. by rewrite !lookup_insert_ne by (by apply path_div_ne_name).
Qed.

Lemma disconnect_after_log_base :
  (<[logpath env label := File (tail_n logsize c)]>
     (<[basepath env label // "log.old" := File c]> (fs s)))
  !! basepath env label = Some Dir.
Proof. by rewrite !lookup_insert_ne by apply path_div_ne. Qed.

(** X10.  When [pty.spawn] has returned anything but 200 and the session
    holds a regular log and history file, the second part of [run] rotates
    the log, then the history, each once and each with its backup written
    over, prints the disconnection line and returns. *)
Theorem disconnect_rotates_both h :
  fs s !! historypath env label = Some (File h) ->
  run_disconnect env label status s =
    (inl tt,
     mkState
       (<[historypath env label := File (tail_n historysize h)]>
          (<[basepath env label // "history.old" := File h]>
             (<[logpath env label := File (tail_n logsize c)]>
                (<[basepath env label // "log.old" := File c]> (fs s)))))
       (trace s ++
        [Subprocess ["tail"; "-n"; pretty logsize;
                     str_path (basepath env label // "log.old")];
         Subprocess ["tail"; "-n"; pretty historysize;
                     str_path (basepath env label // "history.old")];
         Stdout (list_byte_of_string
                   ("=== Disconnected from session " +:+ dq +:+ label +:+ dq
                    +:+ " ===" +:+ LF +:+ LF))])).
Proof.
  intros Hhist. unfold run_disconnect.
  apply Z.eqb_neq in Hstatus. rewrite Hstatus. cbn [negb].
  erewrite bind_ok by apply disconnect_log_rotated.
  erewrite bind_ok; cycle 1.
  { apply truncate_file with (c := h); cbn.
    - by apply path_div_ne_name.
    - unfold historypath. by rewrite disconnect_after_log.
    - unfold is_dir in *. by rewrite disconnect_after_log.
    - unfold historypath. rewrite path_parent_div. apply is_dir_lookup.
      apply disconnect_after_log_base.
    - rewrite path_parent_div. apply is_dir_lookup.
      apply disconnect_after_log_base. }
  unfold print. py_run. rewrite <- !app_assoc. cbn.
  do 5 f_equal. unfold LF, dq.
  by rewrite <- !append_assoc.
Qed.

(** X11.  In the same situation but with no history file, the log has been
    rotated by the time the move of the history raises
    [FileNotFoundError]; no disconnection line is printed. *)
Theorem disconnect_missing_history :
  fs s !! historypath env label = None ->
  run_disconnect env label status s =
    (inr (Raise (Exn FileNotFoundError OpMove (historypath env label))),
     mkState
       (<[logpath env label := File (tail_n logsize c)]>
          (<[basepath env label // "log.old" := File c]> (fs s)))
       (trace s ++
        [Subprocess ["tail"; "-n"; pretty logsize;
                     str_path (basepath env label // "log.old")]])).
Proof.
  intros Hhist. unfold run_disconnect.
  apply Z.eqb_neq in Hstatus. rewrite Hstatus. cbn [negb].
  erewrite bind_ok by apply disconnect_log_rotated.
  erewrite bind_abort; [reflexivity|].
  unfold truncate, shutil_move, missing_kind. py_run.
  unfold is_dir in *. rewrite disconnect_after_log by done.
  destruct (fs s !! (basepath env label // "history.old")) as [[|]|];
    try done; cbn; unfold historypath in *;
    by rewrite disconnect_after_log, Hhist, path_parent_div,
         disconnect_after_log_base.
Qed.

End Disconnect.

(* ===================================================================== *)
(** * Further properties: connecting *)

Lemma run_session_to_replay env label s :
  environ env !! "SHELL" = Some "/bin/bash" ->
  lock_held_at_probe env = false \/ fs s !! lockpath env label = None ->
  fs s !! basepath env label = Some Dir ->
  is_dir (fs s) (initpath env label) = false ->
  exists script,
    format init_bash (init_data env label) = Some script
    /\ run_session env label s =
       (log ← read_bytes (logpath env label);
        stdout_write log;;
        open_ab (logpath env label);;
        pty_spawn (spawn_cmd env label)
          (flock (lock_held_at_spawn env) (lockpath env label)
             (bash env (read env label))))
         (mkState
            (<[initpath env label := File (list_byte_of_string script)]>
               (lock_opened (lockpath env label) (fs s)))
            (trace s ++
             [Subprocess (probe_cmd env label); Stdout [x1b; x63]])).
Proof.
  intros Hsh Hfree Hbase Hinit.
  destruct (format_init_data env label) as [script Hscript].
  exists script. split; [done|].
  unfold run_session. rewrite Hsh, Hscript. rewrite bind_ret_l.
  change (negb ("/bin/bash" =? "/bin/bash")%string) with false.
  cbn [when]. rewrite bind_ret_l. fold (probe_cmd env label).
  erewrite bind_ok by (by apply probe_free).
  change (0 =? 200) with false. cbn [when]. rewrite !bind_ret_l.
  erewrite bind_ok; cycle 1.
  { apply write_bytes_ok; cbn.
    - unfold initpath. rewrite path_parent_div. apply is_dir_lookup.
      rewrite lock_opened_lookup_ne; [done|]. symmetry. apply path_div_ne.
    - unfold is_dir. rewrite lock_opened_lookup_ne; [done|].
      by apply path_div_ne_name. }
  unfold stdout_write at 1. erewrite bind_ok by reflexivity.
  cbn. by rewrite <- app_assoc.
Qed.

(** X12.  [connect] to a session directory that holds no log file ends in
    [FileNotFoundError] from the opening of the log, after the probe has
    run, the init script has been written and the terminal has been reset;
    no shell is spawned. *)
Theorem connect_missing_log env label s :
  environ env !! "SHELL" = Some "/bin/bash" ->
  lock_held_at_probe env = false \/ fs s !! lockpath env label = None ->
  fs s !! basepath env label = Some Dir ->
  is_dir (fs s) (initpath env label) = false ->
  fs s !! logpath env label = None ->
  exists script,
    format init_bash (init_data env label) = Some script
    /\ connect env label s =
       (inr (Raise (Exn FileNotFoundError OpOpen (logpath env label))),
        mkState
          (<[initpath env label := File (list_byte_of_string script)]>
             (lock_opened (lockpath env label) (fs s)))
          (trace s ++
           [Subprocess (probe_cmd env label); Stdout [x1b; x63]])).
Proof.
  intros Hsh Hfree Hbase Hinit Hlog.
  destruct (run_session_to_replay _ _ _ Hsh Hfree Hbase Hinit)
    as (script & Hscript & Hrun).
  exists script. split; [done|].
  unfold connect, path_exists. py_run. unfold exists_. rewrite Hbase. cbn.
  unfold run. erewrite bind_abort; [reflexivity|]. rewrite Hrun.
  unfold read_bytes. py_run.
  rewrite lookup_insert_ne by (by apply path_div_ne_name).
  rewrite lock_opened_lookup_ne by (by apply path_div_ne_name).
  rewrite Hlog. cbn. unfold missing_kind, logpath.
  rewrite path_parent_div.
  rewrite lookup_insert_ne by apply path_div_ne.
  rewrite lock_opened_lookup_ne by (symmetry; apply path_div_ne).
  by rewrite Hbase.
Qed.

(** X13.  On a connection that gets the lock and whose shell leaves the log
    file alone, what the shell prints goes to the terminal and, byte for
    byte, to the end of the log; [pty.spawn] returns the wait status of
    [flock], which has exited with the code of the shell, or with 128 plus
    the signal that killed the shell. *)
Theorem session_tees_output env label s log0 :
  environ env !! "SHELL" = Some "/bin/bash" ->
  lock_held_at_probe env = false \/ fs s !! lockpath env label = None ->
  connectable env label (fs s) log0 ->
  lock_held_at_spawn env = false ->
  (forall f : gmap (list string) node,
     f !! logpath env label = Some (File log0) ->
     shell_fs env f !! logpath env label = Some (File log0)) ->
  exists s1,
    run_session env label s
    = (inl (waitstatus (flock_exit (shell_exit env))), s1)
    /\ fs s1 !! logpath env label = Some (File (log0 ++ shell_output env))
    /\ trace s1 =
       trace s ++
       [Subprocess (probe_cmd env label); Stdout [x1b; x63]; Stdout log0;
        PtySpawn (spawn_cmd env label); Stdout (shell_output env)].
Proof.
  intros Hsh Hfree Hconn Hspawn Hshell.
  pose proof Hconn as (Hbase & Hlog & Hinit).
  destruct (run_session_spawns _ _ _ _ Hsh Hfree Hconn)
    as (script & _ & ->).
  set (f := <[initpath env label := File (list_byte_of_string script)]>
              (lock_opened (lockpath env label) (fs s))).
  assert (is_Some (f !! lockpath env label)) as [n Hn].
  { subst f. rewrite lookup_insert_ne by (by apply path_div_ne_name).
    unfold lock_opened.
    destruct (fs s !! lockpath env label) as [n|] eqn:E.
    - by rewrite E.
    - rewrite lookup_insert_eq. by eexists. }
  assert (shell_fs env f !! logpath env label = Some (File log0)) as Hf.
  { apply Hshell. subst f.
    rewrite lookup_insert_ne by (by apply path_div_ne_name).
    rewrite lock_opened_lookup_ne; [done|]. by apply path_div_ne_name. }
  unfold flock, bash, read, fd_append. py_run.
  rewrite Hn, Hspawn. cbn. rewrite Hf. cbn.
  eexists. split; [reflexivity|]. cbn.
  rewrite lookup_insert_eq. split; [done|]. by rewrite <- app_assoc.
Qed.

Lemma fresh_session_at_call env label s f1 :
  environ env !! "SHELL" = Some "/bin/bash" ->
  exists_ (fs s) (basepath env label) = false ->
  mkdir_from [] (basepath env label) (fs s) = inl f1 ->
  (forall name, fs s !! (basepath env label // name) = None) ->
  exists script,
    format init_bash (init_data env label) = Some script
    /\ f1 !! basepath env label = Some Dir
    /\ create env label s =
       after_spawn env label
         (mkState
            (<[initpath env label := File (list_byte_of_string script)]>
               (<[lockpath env label := File []]>
                  (<[logpath env label := File []]>
                     (<[workpath env label :=
                          File (list_byte_of_string (str_path (cwd env)))]>
                        f1))))
            (trace s ++
             [Subprocess (probe_cmd env label); Stdout [x1b; x63];
              Stdout []; PtySpawn (spawn_cmd env label)])).
Proof.
  intros Hsh Hex Hmk Hnone.
  destruct (mkdir_from_ok _ _ _ _ Hmk) as [Hbase Hlong].
  assert (f1 !! basepath env label = Some Dir) as Hdir.
  { apply Hbase. unfold basepath, path_div. intros H.
    by apply app_eq_nil in H as [_ ?]. }
  assert (forall name, f1 !! (basepath env label // name) = None) as Hsame.
  { intros name. rewrite Hlong; [done|]. unfold path_div.
    rewrite !length_app. simpl. lia. }
  set (f2 := <[logpath env label := File []]>
               (<[workpath env label :=
                    File (list_byte_of_string (str_path (cwd env)))]> f1)).
  assert (create env label s = run env label (mkState f2 (trace s))) as ->.
  { unfold create, path_exists, mkdir_parents. py_run. rewrite Hex. cbn.
    rewrite Hmk. cbn. subst f2. unfold workpath, logpath in *.
    match goal with |- context [write_bytes ?p ?d ?st] =>
      rewrite (write_bytes_ok p d st) end; cycle 1.
    { cbn. rewrite path_parent_div. by apply is_dir_lookup. }
    { cbn. unfold is_dir. by rewrite Hsame. }
    cbn. unfold touch. py_run. rewrite path_parent_div.
    rewrite !lookup_insert_ne
      by first [apply path_div_ne | by apply path_div_ne_name].
    by rewrite Hdir, Hsame. }
  assert (forall name, name ≠ "log" -> name ≠ "workdir" ->
            f2 !! (basepath env label // name) = None) as Hf2.
  { intros name H1 H2. subst f2.
    rewrite !lookup_insert_ne by (by apply path_div_ne_name). apply Hsame. }
  destruct (run_session_spawns env label (mkState f2 (trace s)) [])
    as (script & Hscript & Hrun).
  - done.
  - right. by apply Hf2.
  - split; [|split]; cbn.
    + subst f2. by rewrite !lookup_insert_ne by apply path_div_ne.
    + subst f2. apply lookup_insert_eq.
    + unfold is_dir, initpath. by rewrite Hf2.
  - exists script. split; [done|]. split; [done|].
    rewrite (run_from_spawn _ _ _ _ _ Hrun). cbn.
    unfold lock_opened, lockpath. by rewrite Hf2.
Qed.

(** X14.  [create] of a new label that the label test accepts, under
    [/bin/bash], reaches the spawn with the session directory made, the
    workdir file holding the current directory, an empty log, the lock
    marker and the init script in place, and with nothing on the terminal
    but the reset sequence. *)
Theorem create_new_session env prog label s f1 :
  argv env = [prog; "create"; label] ->
  valid_label_match label = true ->
  environ env !! "SHELL" = Some "/bin/bash" ->
  exists_ (fs s) (basepath env label) = false ->
  mkdir_from [] (basepath env label) (fs s) = inl f1 ->
  (forall name, fs s !! (basepath env label // name) = None) ->
  exists script,
    format init_bash (init_data env label) = Some script
    /\ f1 !! basepath env label = Some Dir
    /\ main env s =
       after_spawn env label
         (mkState
            (<[initpath env label := File (list_byte_of_string script)]>
               (<[lockpath env label := File []]>
                  (<[logpath env label := File []]>
                     (<[workpath env label :=
                          File (list_byte_of_string (str_path (cwd env)))]>
                        f1))))
            (trace s ++
             [Subprocess (probe_cmd env label); Stdout [x1b; x63];
              Stdout []; PtySpawn (spawn_cmd env label)])).
Proof.
  intros Hargv Hvalid Hsh Hex Hmk Hnone.
  destruct (fresh_session_at_call env label s f1 Hsh Hex Hmk Hnone)
    as (script & Hscript & Hdir & Hcreate).
  exists script. split; [done|]. split; [done|].
  by rewrite (main_calls env prog "create" label s) by auto.
Qed.

(* ===================================================================== *)
(** * Further properties: listing *)

Lemma list_fold base (l : list (list string * node)) : forall s,
  foldr (fun e k =>
           match e.2 with
           | Dir =>
               if bool_decide (path_parent e.1 = base)
               then print (path_name e.1);; k else k
           | File _ => k
           end) (ret tt) l s
  = (inl tt, mkState (fs s) (trace s ++ printed (omap (session_name base) l))).
Proof.
  induction l as [|[p n] l IH]; intros s; cbn.
  - rewrite app_nil_r. by destruct s.
  - unfold session_name at 1. cbn. destruct n as [c|]; [apply IH|].
    case_bool_decide; [|apply IH].
    unfold print at 1. erewrite bind_ok by reflexivity.
    rewrite IH. cbn. by rewrite <- app_assoc.
Qed.

Lemma NoDup_omap_inj {A B} (f : A -> option B) (l : list A) :
  (forall x y n, f x = Some n -> f y = Some n -> x = y) ->
  NoDup l -> NoDup (omap f l).
Proof.
  intros Hinj. induction 1 as [|x l Hx Hl IH]; cbn; [constructor|].
  destruct (f x) as [n|] eqn:E; [|done].
  constructor; [|done]. intros Hn.
  apply list_elem_of_omap in Hn as (y & Hy & Hfy).
  by rewrite (Hinj x y n E Hfy) in Hx.
Qed.

Lemma session_name_Some base e n :
  base ≠ [] ->
  session_name base e = Some n <-> e = (base // n, Dir).
Proof.
  intros Hbase. destruct e as [p nd]. unfold session_name. cbn. split.
  - destruct nd; [done|]. case_bool_decide as Hp; [|done].
    intros [= <-]. f_equal. subst base.
    destruct p as [|c p] using rev_ind; [done|].
    unfold path_parent, path_name, path_div.
    by rewrite removelast_last, last_last.
  - intros [= -> ->].
    rewrite bool_decide_eq_true_2 by apply path_parent_div.
    f_equal. apply path_name_div.
Qed.

(** X15.  [list] prints, one per line and each once, the names of exactly
    the directories directly below the sessions directory, regular files
    there left out, and changes nothing. *)
Theorem list_prints_directories env prog s :
  argv env = [prog; "list"] ->
  fs s !! (home env // ".pshaw") = Some Dir ->
  exists names,
    main env s = (inl tt, mkState (fs s) (trace s ++ printed names))
    /\ NoDup names
    /\ forall n, n ∈ names <-> fs s !! (home env // ".pshaw" // n) = Some Dir.
Proof.
  intros Hargv Hdir.
  assert (home env // ".pshaw" ≠ []) as Hne.
  { unfold path_div. intros H. by apply app_eq_nil in H as [_ ?]. }
  exists (omap (session_name (home env // ".pshaw")) (map_to_list (fs s))).
  split; [|split].
  - unfold main, parse_arguments, sys_argv, dict_get. rewrite Hargv. py_run.
    rewrite lookup_singleton_eq. cbn.
    unfold list_sessions. py_run. rewrite Hdir. apply list_fold.
  - apply NoDup_omap_inj; [|apply NoDup_map_to_list].
    intros x y n Hx Hy.
    apply session_name_Some in Hx, Hy; try done. congruence.
  - intros n. rewrite list_elem_of_omap. split.
    + intros ([p nd] & Hin & Hn). apply session_name_Some in Hn; [|done].
      injection Hn as -> ->. by apply elem_of_map_to_list in Hin.
    + intros Hn. exists (home env // ".pshaw" // n, Dir). split.
      * by apply elem_of_map_to_list.
      * by apply session_name_Some.
Qed.

(** X16.  [list] before the sessions directory exists ends in an error from
    the directory scan, with nothing printed: [FileNotFoundError] when the
    home is a directory, [NotADirectoryError] when it is a regular file. *)
Theorem list_without_sessions_directory env prog s above :
  argv env = [prog; "list"] ->
  fs s !! (home env // ".pshaw") = None ->
  fs s !! home env = Some above ->
  main env s
  = (inr (Raise (Exn (match above with
                      | Dir => FileNotFoundError
                      | File _ => NotADirectoryError
                      end) OpIterdir (home env // ".pshaw"))), s).
Proof.
  intros Hargv Hdir Habove.
  unfold main, parse_arguments, sys_argv, dict_get. rewrite Hargv. py_run.
  rewrite lookup_singleton_eq. cbn.
  unfold list_sessions, missing_kind. py_run.
  rewrite Hdir, path_parent_div, Habove. by destruct s, above.
Qed.

(* ===================================================================== *)
(** * The further properties on concrete sessions *)

Lemma connect_without_shell_witness :
  connect no_shell_env "build" (mkState fs_build [])
  = (inr (Raise (Exn KeyError OpEnviron [])), mkState fs_build []).
Proof.
  apply (connect_without_shell no_shell_env "build" (mkState fs_build []));
    reflexivity.
Defined.

Lemma truncate_into_directory_witness :
  truncate (rot_dir // "log") (rot_dir // "log.old") logsize
    (mkState fs_build_old_dir [])
  = (inl tt,
     mkState (<[rot_dir // "log" := File []]>
                (<[rot_dir // "log.old" // path_name (rot_dir // "log") :=
                     File demo_log]> fs_build_old_dir))
       ([] ++ [Subprocess ["tail"; "-n"; pretty logsize;
                           str_path (rot_dir // "log.old")]])).
Proof.
  apply (truncate_into_directory (rot_dir // "log") (rot_dir // "log.old")
           logsize (mkState fs_build_old_dir []) demo_log); reflexivity.
Defined.

Lemma disconnect_rotates_both_witness :
  run_disconnect connect_env "build" 0 (mkState fs_build []) =
    (inl tt,
     mkState
       (<[historypath connect_env "build" :=
            File (tail_n historysize (list_byte_of_string ("ls" +:+ LF)))]>
          (<[basepath connect_env "build" // "history.old" :=
               File (list_byte_of_string ("ls" +:+ LF))]>
             (<[logpath connect_env "build" :=
                  File (tail_n logsize demo_log)]>
                (<[basepath connect_env "build" // "log.old" :=
                     File demo_log]> fs_build))))
       ([] ++
        [Subprocess ["tail"; "-n"; pretty logsize;
                     str_path (basepath connect_env "build" // "log.old")];
         Subprocess ["tail"; "-n"; pretty historysize;
                     str_path (basepath connect_env "build"
                               // "history.old")];
         Stdout (list_byte_of_string
                   ("=== Disconnected from session " +:+ dq +:+ "build"
                    +:+ dq +:+ " ===" +:+ LF +:+ LF))])).
Proof.
  apply (disconnect_rotates_both connect_env "build" 0
           (mkState fs_build []) demo_log); done.
Defined.

Lemma disconnect_missing_history_witness :
  run_disconnect connect_env "build" 0 (mkState fs_build_no_history []) =
    (inr (Raise (Exn FileNotFoundError OpMove
                   (historypath connect_env "build"))),
     mkState
       (<[logpath connect_env "build" := File (tail_n logsize demo_log)]>
          (<[basepath connect_env "build" // "log.old" := File demo_log]>
             fs_build_no_history))
       ([] ++
        [Subprocess ["tail"; "-n"; pretty logsize;
                     str_path (basepath connect_env "build" // "log.old")]])).
Proof.
  apply (disconnect_missing_history connect_env "build" 0
           (mkState fs_build_no_history []) demo_log); done.
Defined.

Lemma connect_missing_log_witness :
  exists script,
    format init_bash (init_data connect_env "build") = Some script
    /\ connect connect_env "build" (mkState fs_build_no_log []) =
       (inr (Raise (Exn FileNotFoundError OpOpen
                      (logpath connect_env "build"))),
        mkState
          (<[initpath connect_env "build" :=
               File (list_byte_of_string script)]>
             (lock_opened (lockpath connect_env "build") fs_build_no_log))
          ([] ++ [Subprocess (probe_cmd connect_env "build");
                  Stdout [x1b; x63]])).
Proof.
  apply (connect_missing_log connect_env "build"
           (mkState fs_build_no_log [])); try reflexivity. by left.
Defined.

Lemma session_tees_output_witness :
  exists s1,
    run_session connect_env "build" (mkState fs_build [])
    = (inl (waitstatus (flock_exit (shell_exit connect_env))), s1)
    /\ fs s1 !! logpath connect_env "build"
       = Some (File (demo_log ++ shell_output connect_env))
    /\ trace s1 =
       [] ++
       [Subprocess (probe_cmd connect_env "build"); Stdout [x1b; x63];
        Stdout demo_log; PtySpawn (spawn_cmd connect_env "build");
        Stdout (shell_output connect_env)].
Proof.
  apply (session_tees_output connect_env "build" (mkState fs_build [])
           demo_log).
  - reflexivity.
  - by left.
  - by repeat split.
  - reflexivity.
  - by intros f Hf.
Defined.

Lemma create_new_session_witness :
  exists script,
    format init_bash
      (init_data (typing_env ["pshaw"; "create"; "build"] "build") "build")
    = Some script
    /\ ({[ ["home"] := Dir; home_u := Dir; home_u // ".pshaw" := Dir;
          rot_dir := Dir ]} : gmap (list string) node)
       !! basepath (typing_env ["pshaw"; "create"; "build"] "build") "build"
       = Some Dir
    /\ main (typing_env ["pshaw"; "create"; "build"] "build")
         (mkState ∅ []) =
       after_spawn (typing_env ["pshaw"; "create"; "build"] "build") "build"
         (mkState
            (<[initpath (typing_env ["pshaw"; "create"; "build"] "build")
                 "build" := File (list_byte_of_string script)]>
               (<[lockpath (typing_env ["pshaw"; "create"; "build"] "build")
                    "build" := File []]>
                  (<[logpath (typing_env ["pshaw"; "create"; "build"] "build")
                       "build" := File []]>
                     (<[workpath
                          (typing_env ["pshaw"; "create"; "build"] "build")
                          "build" :=
                          File (list_byte_of_string
                                  (str_path
                                     (cwd (typing_env
                                             ["pshaw"; "create"; "build"]
                                             "build"))))]>
                        {[ ["home"] := Dir; home_u := Dir;
                           home_u // ".pshaw" := Dir; rot_dir := Dir ]}))))
            ([] ++
             [Subprocess
                (probe_cmd (typing_env ["pshaw"; "create"; "build"] "build")
                   "build");
              Stdout [x1b; x63]; Stdout [];
              PtySpawn
                (spawn_cmd (typing_env ["pshaw"; "create"; "build"] "build")
                   "build")])).
Proof.
  apply (create_new_session
           (typing_env ["pshaw"; "create"; "build"] "build") "pshaw" "build"
           (mkState ∅ [])
           {[ ["home"] := Dir; home_u := Dir; home_u // ".pshaw" := Dir;
              rot_dir := Dir ]}).
  - reflexivity.
  - reflexivity.
  - reflexivity.
  - reflexivity.
  - vm_compute; reflexivity.
  - intros name. apply lookup_empty.
Defined.

Lemma list_prints_directories_witness :
  exists names,
    main (demo_env ["pshaw"; "list"] "/bin/bash" false false)
      (mkState fs_sessions [])
    = (inl tt, mkState fs_sessions ([] ++ printed names))
    /\ NoDup names
    /\ forall n,
         n ∈ names
         <-> fs_sessions !! (home_u // ".pshaw" // n) = Some Dir.
Proof.
  apply (list_prints_directories
           (demo_env ["pshaw"; "list"] "/bin/bash" false false) "pshaw"
           (mkState fs_sessions [])); reflexivity.
Defined.

Lemma list_without_sessions_directory_witness :
  main (demo_env ["pshaw"; "list"] "/bin/bash" false false)
    (mkState fs_home_only [])
  = (inr (Raise (Exn FileNotFoundError OpIterdir (home_u // ".pshaw"))),
     mkState fs_home_only [])
  /\ main (demo_env ["pshaw"; "list"] "/bin/bash" false false)
       (mkState fs_home_file [])
     = (inr (Raise (Exn NotADirectoryError OpIterdir (home_u // ".pshaw"))),
        mkState fs_home_file []).
Proof.
  split.
  - apply (list_without_sessions_directory
             (demo_env ["pshaw"; "list"] "/bin/bash" false false) "pshaw"
             (mkState fs_home_only []) Dir); reflexivity.
  - apply (list_without_sessions_directory
             (demo_env ["pshaw"; "list"] "/bin/bash" false false) "pshaw"
             (mkState fs_home_file []) (File [])); reflexivity.
Defined.
